(** * Verification of the SAN datastore modules

    Shallow embedding of [library/vmware_host_datastore_san.py] (the
    reconciler [VMwareHostSanDatastore]) and of
    [library/vmware_datastore_san_facts.py] (the read-only facts path
    [VMwareDatastore]).

    The vSphere inventory the modules talk to through pyVmomi is modelled
    as a [World] record: what the reads of the modules return, and which
    remote calls raise a fault.  The reconciler runs in a state and
    exception monad whose state is the world together with the ordered
    trace of remote calls issued so far. *)

From Stdlib Require Import String Ascii List Bool Arith Lia.
Import ListNotations.
Open Scope list_scope.
Open Scope string_scope.

(** ** Python string operations used by the modules *)

(** [str.lower] on ASCII text. *)
Definition ascii_lower (c : ascii) : ascii :=
  let n := nat_of_ascii c in
  if (65 <=? n)%nat && (n <=? 90)%nat then ascii_of_nat (n + 32)%nat else c.

Fixpoint str_lower (s : string) : string :=
  match s with
  | EmptyString => EmptyString
  | String c t => String (ascii_lower c) (str_lower t)
  end.

(** [s.split(sep)] for a one-character separator: always a non-empty list. *)
Fixpoint py_split (sep : ascii) (s : string) : list string :=
  match s with
  | EmptyString => [EmptyString]
  | String c t =>
      match py_split sep t with
      | [] => [String c EmptyString]
      | w :: ws =>
          if Ascii.eqb c sep then EmptyString :: w :: ws
          else String c w :: ws
      end
  end.

(** [l[-1]] on a non-empty list. *)
Definition py_last (l : list string) : string := last l EmptyString.

(** [x.diskName.split('.')[-1]] *)
Definition last_dot_segment (diskName : string) : string :=
  py_last (py_split "." diskName).

(** [needle in hay] for strings (substring test). *)
Fixpoint py_contains (needle hay : string) : bool :=
  String.prefix needle hay ||
  match hay with
  | EmptyString => false
  | String _ t => py_contains needle t
  end.

(** [str(x)] for an optional string parameter: [None] prints as "None". *)
Definition py_str_opt (o : option string) : string :=
  match o with
  | Some s => s
  | None => "None"
  end.

(** Truthiness of an optional string parameter. *)
Definition truthy (o : option string) : bool :=
  match o with
  | Some s => negb (String.eqb s EmptyString)
  | None => false
  end.

(** ** Inventory objects

    Managed objects are identified by their managed object reference
    ([moid]); the children of a folder and the datastores of a host are
    lists of references, as in the vSphere API. *)

(** [datastore.info.vmfs] *)
Record Vmfs := {
  vmfs_uuid : string;
  vmfs_type : string;
  vmfs_extent : list string        (* the extents' [diskName]s *)
}.

(** [datastore.parent]: a datastore cluster ([vim.StoragePod]) or another folder. *)
Inductive Parent :=
| StoragePod (name : string)
| OtherFolder (name : string).

Record Datastore := {
  ds_moid : string;                (* the datastore's managed object reference *)
  ds_name : string;                (* [summary.name] *)
  ds_maintenanceMode : string;     (* [summary.maintenanceMode] *)
  ds_url : string;                 (* [summary.url] *)
  ds_parent : Parent;
  ds_info_class : string;          (* the pyVmomi class of [info],
                                      e.g. ["vim.host.NasDatastoreInfo"] *)
  ds_vmfs : option Vmfs;           (* [None]: [info] has no [vmfs] (e.g. NFS) *)
  ds_host : list string            (* [datastore.host]: names of mounting hosts *)
}.

Record HostSystem := {
  h_name : string;
  h_parent : string                (* [host.parent.name] *)
}.

(** [vim.host.VmfsDatastoreCreateSpec], the parts the module touches. *)
Record CreateSpec := {
  cs_volumeName : string;          (* [spec.vmfs.volumeName] *)
  cs_diskName : string             (* [spec.extent.diskName] *)
}.

(** [vim.host.VmfsDatastoreExpandSpec] *)
Record ExpandSpec := {
  es_diskName : string             (* [spec.extent.diskName] *)
}.

(** A [vim.Folder]; a datastore cluster ([vim.StoragePod]) is one too. *)
Record Folder := {
  f_moid : string;
  f_name : string;
  f_pod : bool;                    (* a [vim.StoragePod] *)
  f_childEntity : list string      (* references of the children *)
}.

(** Remote calls the reconciler issues, in the order it issues them.  A
    datastore argument is recorded by its name; the folder move by the
    references of the target folder and of the moved entity. *)
Inductive call :=
| RescanAllHba (host : string)
| RescanVmfs (host : string)
| QueryVmfsDatastoreCreateOptions (host : string) (devicePath : string)
| CreateVmfsDatastore (host : string) (spec : CreateSpec)
| MoveIntoFolder (target : string) (entity : string)
| QueryVmfsDatastoreExpandOptions (host : string) (datastore : string)
| ExpandVmfsDatastore (host : string) (datastore : string) (spec : ExpandSpec)
| UnmountVmfsVolume (host : string) (vmfsUuid : string)
| RemoveDatastore (host : string) (datastore : string).

(** What the inventory answers.  [w_raises c] is the fault message a call
    [c] raises, if it raises. *)
Record World := {
  w_hosts : list HostSystem;
  w_clusters : list (string * list string);     (* cluster name, member host names *)
  w_datastores : list Datastore;                (* in the order the container view lists them *)
  w_folders : list Folder;                      (* every folder, datastore clusters included,
                                                   as [get_all_objs(content, [vim.Folder])] lists them *)
  w_host_datastore : string -> list string;     (* [host.datastore] of the named host, in its order *)
  w_datastore_folder : string -> string;        (* the datastore folder of the named host's datacenter *)
  w_new_moid : string -> string;                (* the reference a datastore created under a name gets *)
  w_create_options : string -> list CreateSpec; (* by device path *)
  w_expand_options : string -> list ExpandSpec; (* by datastore name *)
  w_raises : call -> option string
}.

(** [find_hostsystem_by_name]: the first host of that name. *)
Definition find_hostsystem_by_name (w : World) (name : string) : option HostSystem :=
  find (fun h => String.eqb (h_name h) name) (w_hosts w).

(** [find_datastore_by_name]: the first datastore of that name. *)
Definition find_datastore_by_name (w : World) (name : string) : option Datastore :=
  find (fun d => String.eqb (ds_name d) name) (w_datastores w).

(** [get_all_hosts_by_cluster]: the hosts of the named cluster, or [[]]. *)
Definition get_all_hosts_by_cluster (w : World) (cluster : string) : list string :=
  match find (fun c => String.eqb (fst c) cluster) (w_clusters w) with
  | Some c => snd c
  | None => []
  end.

(** The objects behind references. *)
Definition find_datastore_by_moid (w : World) (m : string) : option Datastore :=
  find (fun d => String.eqb (ds_moid d) m) (w_datastores w).

Definition find_folder_by_moid (w : World) (m : string) : option Folder :=
  find (fun f => String.eqb (f_moid f) m) (w_folders w).

(** [x.name] of a child entity of a folder (a datastore or a folder). *)
Definition entity_name (w : World) (m : string) : option string :=
  match find_datastore_by_moid w m with
  | Some d => Some (ds_name d)
  | None => option_map f_name (find_folder_by_moid w m)
  end.

(** [x.name == n] for a child entity [x]. *)
Definition has_name (w : World) (n m : string) : bool :=
  match entity_name w m with
  | Some x => String.eqb x n
  | None => false
  end.

(** [host.datastore]: the datastores the host lists, in the host's order. *)
Definition host_datastores (w : World) (host : string) : list Datastore :=
  flat_map (fun m => match find_datastore_by_moid w m with
                     | Some d => [d]
                     | None => []
                     end) (w_host_datastore w host).

(** ** How the inventory changes under a call that succeeds

    Rescans and queries leave the inventory as it is.  A created datastore
    gets a fresh reference, is mounted on the creating host and becomes a
    child of the datastore folder of that host's datacenter.  An expand
    consumes the expand option it applied.  A move takes the entity out of
    its folder, makes it a child of the target folder and, for a datastore,
    its parent.  An unmount drops the host from the mounts of the volume.
    A removal deletes the datastore object the module passes: the one
    [find_datastore_by_name] returned, which is the first of that name. *)

Definition set_datastores (w : World) (l : list Datastore) : World :=
  {| w_hosts := w_hosts w; w_clusters := w_clusters w; w_datastores := l;
     w_folders := w_folders w; w_host_datastore := w_host_datastore w;
     w_datastore_folder := w_datastore_folder w; w_new_moid := w_new_moid w;
     w_create_options := w_create_options w;
     w_expand_options := w_expand_options w; w_raises := w_raises w |}.

Definition set_folders (w : World) (l : list Folder) : World :=
  {| w_hosts := w_hosts w; w_clusters := w_clusters w; w_datastores := w_datastores w;
     w_folders := l; w_host_datastore := w_host_datastore w;
     w_datastore_folder := w_datastore_folder w; w_new_moid := w_new_moid w;
     w_create_options := w_create_options w;
     w_expand_options := w_expand_options w; w_raises := w_raises w |}.

Definition set_host_datastore (w : World) (f : string -> list string) : World :=
  {| w_hosts := w_hosts w; w_clusters := w_clusters w; w_datastores := w_datastores w;
     w_folders := w_folders w; w_host_datastore := f;
     w_datastore_folder := w_datastore_folder w; w_new_moid := w_new_moid w;
     w_create_options := w_create_options w;
     w_expand_options := w_expand_options w; w_raises := w_raises w |}.

Definition set_expand_options (w : World) (f : string -> list ExpandSpec) : World :=
  {| w_hosts := w_hosts w; w_clusters := w_clusters w; w_datastores := w_datastores w;
     w_folders := w_folders w; w_host_datastore := w_host_datastore w;
     w_datastore_folder := w_datastore_folder w; w_new_moid := w_new_moid w;
     w_create_options := w_create_options w;
     w_expand_options := f; w_raises := w_raises w |}.

(** Append child [m] to the folder [folder]. *)
Definition add_child (folder m : string) (f : Folder) : Folder :=
  if String.eqb (f_moid f) folder
  then {| f_moid := f_moid f; f_name := f_name f; f_pod := f_pod f;
          f_childEntity := app (f_childEntity f) [m] |}
  else f.

Definition drop_child (m : string) (f : Folder) : Folder :=
  {| f_moid := f_moid f; f_name := f_name f; f_pod := f_pod f;
     f_childEntity := filter (fun x => negb (String.eqb x m)) (f_childEntity f) |}.

Definition set_parent (m : string) (p : Parent) (d : Datastore) : Datastore :=
  if String.eqb (ds_moid d) m
  then {| ds_moid := ds_moid d; ds_name := ds_name d;
          ds_maintenanceMode := ds_maintenanceMode d; ds_url := ds_url d;
          ds_parent := p; ds_info_class := ds_info_class d;
          ds_vmfs := ds_vmfs d; ds_host := ds_host d |}
  else d.

Definition new_datastore (m host : string) (spec : CreateSpec) : Datastore :=
  {| ds_moid := m; ds_name := cs_volumeName spec; ds_maintenanceMode := "normal";
     ds_url := "ds:///vmfs/volumes/" ++ cs_volumeName spec ++ "/";
     ds_parent := OtherFolder "datastore";
     ds_info_class := "vim.host.VmfsDatastoreInfo";
     ds_vmfs := Some {| vmfs_uuid := cs_volumeName spec; vmfs_type := "VMFS";
                        vmfs_extent := [cs_diskName spec] |};
     ds_host := [host] |}.

Definition unmount_from (host uuid : string) (d : Datastore) : Datastore :=
  match ds_vmfs d with
  | Some v =>
      if String.eqb (vmfs_uuid v) uuid then
        {| ds_moid := ds_moid d; ds_name := ds_name d;
           ds_maintenanceMode := ds_maintenanceMode d; ds_url := ds_url d;
           ds_parent := ds_parent d; ds_info_class := ds_info_class d;
           ds_vmfs := ds_vmfs d;
           ds_host := filter (fun h => negb (String.eqb h host)) (ds_host d) |}
      else d
  | None => d
  end.

(** The datastore behind reference [m] is the VMFS volume [uuid]. *)
Definition has_vmfs_uuid (w : World) (uuid m : string) : bool :=
  match find_datastore_by_moid w m with
  | Some d => match ds_vmfs d with
              | Some v => String.eqb (vmfs_uuid v) uuid
              | None => false
              end
  | None => false
  end.

Definition apply_call (w : World) (c : call) : World :=
  match c with
  | CreateVmfsDatastore h spec =>
      let m := w_new_moid w (cs_volumeName spec) in
      set_host_datastore
        (set_folders
           (set_datastores w (app (w_datastores w) [new_datastore m h spec]))
           (map (add_child (w_datastore_folder w h) m) (w_folders w)))
        (fun n => if String.eqb n h then app (w_host_datastore w n) [m]
                  else w_host_datastore w n)
  | ExpandVmfsDatastore _ ds spec =>
      set_expand_options w (fun n =>
        if String.eqb n ds
        then filter (fun e => negb (String.eqb (es_diskName e) (es_diskName spec)))
                    (w_expand_options w n)
        else w_expand_options w n)
  | MoveIntoFolder tgt ent =>
      match find_folder_by_moid w tgt with
      | None => w
      | Some tf =>
          let p := if f_pod tf then StoragePod (f_name tf) else OtherFolder (f_name tf) in
          set_folders
            (set_datastores w (map (set_parent ent p) (w_datastores w)))
            (map (add_child tgt ent) (map (drop_child ent) (w_folders w)))
      end
  | UnmountVmfsVolume h uuid =>
      set_host_datastore
        (set_datastores w (map (unmount_from h uuid) (w_datastores w)))
        (fun n => if String.eqb n h
                  then filter (fun m => negb (has_vmfs_uuid w uuid m)) (w_host_datastore w n)
                  else w_host_datastore w n)
  | RemoveDatastore _ ds =>
      match find_datastore_by_name w ds with
      | None => w
      | Some d =>
          let m := ds_moid d in
          set_host_datastore
            (set_folders
               (set_datastores w (filter (fun x => negb (String.eqb (ds_moid x) m))
                                         (w_datastores w)))
               (map (drop_child m) (w_folders w)))
            (fun n => filter (fun x => negb (String.eqb x m)) (w_host_datastore w n))
      end
  | _ => w
  end.

(** ** The module's control flow: state, exceptions and [SystemExit]

    [exit_json] and [fail_json] end the module (they raise [SystemExit],
    which the modules' [except Exception] clauses do not catch); any other
    exception carries the message the handlers render ([fault.msg] or
    [to_native(e)]). *)

Inductive module_result :=
| ExitJson (changed : bool) (result : option string)
| FailJson (msg : string).

Inductive res (A : Type) :=
| Ret (a : A)
| Raise (msg : string)
| Exited (r : module_result).
Arguments Ret {A} a.
Arguments Raise {A} msg.
Arguments Exited {A} r.

Record St := { st_world : World; st_trace : list call }.

Definition M (A : Type) := St -> St * res A.

Definition ret {A} (a : A) : M A := fun s => (s, Ret a).

Definition bind {A B} (m : M A) (k : A -> M B) : M B :=
  fun s =>
    match m s with
    | (s', Ret a) => k a s'
    | (s', Raise e) => (s', Raise e)
    | (s', Exited r) => (s', Exited r)
    end.

Notation "x <- m ;; k" := (bind m (fun x => k))
  (at level 61, m at next level, right associativity).
Notation "m ;; k" := (bind m (fun _ : unit => k))
  (at level 61, right associativity).

Definition raise {A} (msg : string) : M A := fun s => (s, Raise msg).
Definition exit_json {A} (changed : bool) (result : option string) : M A :=
  fun s => (s, Exited (ExitJson changed result)).
Definition fail_json {A} (msg : string) : M A :=
  fun s => (s, Exited (FailJson msg)).
Definition get_world : M World := fun s => (s, Ret (st_world s)).

(** [try: m except Exception as e: h(e)] *)
Definition try_except {A} (m : M A) (h : string -> M A) : M A :=
  fun s =>
    match m s with
    | (s', Raise e) => h e s'
    | r => r
    end.

(** Issue a remote call: it is recorded, then either raises its fault or
    takes effect on the inventory. *)
Definition remote (c : call) : M unit :=
  fun s =>
    let w := st_world s in
    let tr := app (st_trace s) [c] in
    match w_raises w c with
    | Some msg => ({| st_world := w; st_trace := tr |}, Raise msg)
    | None => ({| st_world := apply_call w c; st_trace := tr |}, Ret tt)
    end.

(** [l[0]] *)
Definition py_index0 {A} (l : list A) : M A :=
  match l with
  | x :: _ => ret x
  | [] => raise "list index out of range"
  end.

(** [for x in l: body(x)] *)
Fixpoint for_each {A} (l : list A) (body : A -> M unit) : M unit :=
  match l with
  | [] => ret tt
  | x :: xs => body x ;; for_each xs body
  end.

(** [datastore.info.vmfs] *)
Definition info_vmfs (d : Datastore) : M Vmfs :=
  match ds_vmfs d with
  | Some v => ret v
  | None => raise ("'" ++ ds_info_class d ++ "' object has no attribute 'vmfs'")
  end.

(** ** [VMwareHostSanDatastore] *)

Inductive DsState := Present | Absent.

(** [module.params] of the mutation path. *)
Record Params := {
  p_datastore_name : string;
  p_esxi_hostname : string;
  p_volume_device_name : option string;
  p_state : DsState;
  p_datastore_cluster_name : option string
}.

(** The attributes [__init__] sets. *)
Record Reconciler := {
  datastore_name : string;
  esxi_hostname : string;
  volume_device_name : option string;
  state : DsState;
  datastore_cluster_name : option string;
  esxi : HostSystem
}.

(** [if self.volume_device_name: self.volume_device_name = self.volume_device_name.lower()] *)
Definition normalize_device (o : option string) : option string :=
  if truthy o then option_map str_lower o else o.

Definition init (p : Params) : M Reconciler :=
  w <- get_world ;;
  match find_hostsystem_by_name w (p_esxi_hostname p) with
  | None => fail_json ("Failed to find ESXi hostname " ++ p_esxi_hostname p ++ " ")
  | Some h =>
      ret {| datastore_name := p_datastore_name p;
             esxi_hostname := p_esxi_hostname p;
             volume_device_name := normalize_device (p_volume_device_name p);
             state := p_state p;
             datastore_cluster_name := p_datastore_cluster_name p;
             esxi := h |}
  end.

Definition check_datastore_host_state (r : Reconciler) : M (option Datastore) :=
  remote (RescanAllHba (h_name (esxi r))) ;;
  w <- get_world ;;
  ret (find_datastore_by_name w (datastore_name r)).

Definition umount_san_datastore_host (r : Reconciler) (datastore : option Datastore) : M unit :=
  match datastore with
  | None => exit_json false None
  | Some d =>
      let error_message_umount :=
        "Cannot umount datastore " ++ datastore_name r ++ " from host " ++ esxi_hostname r in
      try_except
        (for_each (ds_host d) (fun host =>
           v <- info_vmfs d ;;
           remote (UnmountVmfsVolume host (vmfs_uuid v))) ;;
         remote (RemoveDatastore (h_name (esxi r)) (ds_name d)))
        (fun e => fail_json (error_message_umount ++ ": " ++ e)) ;;
      exit_json true (Some ("Datastore " ++ datastore_name r ++ " on host " ++ esxi_hostname r))
  end.

Definition rescan_other_hosts_in_cluster (r : Reconciler) : M unit :=
  w <- get_world ;;
  for_each (get_all_hosts_by_cluster w (h_parent (esxi r))) (fun host =>
    if negb (String.eqb host (esxi_hostname r)) then
      remote (RescanAllHba host) ;;
      remote (RescanVmfs host)
    else ret tt).

Definition query_create_options (host path : string) : M (list CreateSpec) :=
  remote (QueryVmfsDatastoreCreateOptions host path) ;;
  w <- get_world ;;
  ret (w_create_options w path).

Definition query_expand_options (host ds : string) : M (list ExpandSpec) :=
  remote (QueryVmfsDatastoreExpandOptions host ds) ;;
  w <- get_world ;;
  ret (w_expand_options w ds).

(** The [if self.datastore_cluster_name:] block after the create: move the
    new datastore into the named datastore cluster and build the message. *)
Definition move_into_datastore_cluster (r : Reconciler) (cluster : string) : M string :=
  w <- get_world ;;
  dsfolder <- py_index0 (filter (fun f => String.eqb (f_name f) "datastore") (w_folders w)) ;;
  srcfolder <- py_index0 (filter (has_name w (datastore_name r)) (f_childEntity dsfolder)) ;;
  tgtfolder <- py_index0 (filter (has_name w cluster) (f_childEntity dsfolder)) ;;
  (* [tgtfolder.MoveIntoFolder_Task] and [wait_for_task]; the task's result
     is [None].  A datastore has no such method. *)
  match find_datastore_by_moid w tgtfolder with
  | Some _ => raise "'vim.Datastore' object has no attribute 'MoveIntoFolder_Task'"
  | None => remote (MoveIntoFolder tgtfolder srcfolder)
  end ;;
  ret ("Datastore " ++ datastore_name r ++ " of cluster " ++ cluster ++ " on host "
       ++ esxi_hostname r ++ " : " ++ "None").

Definition ds_path_of (r : Reconciler) : string :=
  "/vmfs/devices/disks/naa." ++ py_str_opt (volume_device_name r).

Definition mount_san_datastore_host (r : Reconciler) (datastore : option Datastore) : M unit :=
  let ds_path := ds_path_of r in
  let host_ds_system := h_name (esxi r) in
  let error_message_mount :=
    "Cannot mount datastore " ++ datastore_name r ++ " on host " ++ esxi_hostname r in
  try_except
    (match datastore with
     | None =>
         vmfs_ds_options <- query_create_options host_ds_system ds_path ;;
         opt0 <- py_index0 vmfs_ds_options ;;
         let spec := {| cs_volumeName := datastore_name r; cs_diskName := cs_diskName opt0 |} in
         remote (CreateVmfsDatastore host_ds_system spec) ;;
         result_msg <-
           (match datastore_cluster_name r with
            | Some cluster =>
                if truthy (Some cluster) then move_into_datastore_cluster r cluster
                else ret ("Datastore " ++ datastore_name r ++ " on host " ++ esxi_hostname r)
            | None => ret ("Datastore " ++ datastore_name r ++ " on host " ++ esxi_hostname r)
            end) ;;
         rescan_other_hosts_in_cluster r ;;
         exit_json true (Some result_msg)
     | Some d =>
         v <- info_vmfs d ;;
         let existing_wwns := map last_dot_segment (vmfs_extent v) in
         (match volume_device_name r with
          | Some dev =>
              if existsb (String.eqb dev) existing_wwns then
                exp_options <- query_expand_options host_ds_system (ds_name d) ;;
                if (0 <? length exp_options)%nat then
                  spec <- py_index0 (filter (fun x => py_contains (str_lower dev) (es_diskName x))
                                            exp_options) ;;
                  remote (ExpandVmfsDatastore host_ds_system (ds_name d) spec) ;;
                  exit_json true (Some ("Expanded storage on datastore " ++ datastore_name r))
                else ret tt
              else ret tt             (* TODO in the source: add missing WWN *)
          | None => ret tt            (* [None in existing_wwns] is false *)
          end) ;;
         exit_json false None
     end)
    (fun e => fail_json (error_message_mount ++ " : " ++ e)).

Definition process_state (r : Reconciler) : M unit :=
  try_except
    (datastore <- check_datastore_host_state r ;;
     match state r with
     | Present => mount_san_datastore_host r datastore
     | Absent => umount_san_datastore_host r datastore
     end)
    (fun e => fail_json e).

(** [main]: construct the reconciler, then [process_state]. *)
Definition main_san (p : Params) : M unit :=
  r <- init p ;;
  process_state r.

(** One invocation against inventory [w]: the inventory afterwards, the
    remote calls issued in order, and how the module ended. *)
Definition reconcile (p : Params) (w : World) : World * list call * res unit :=
  let '(s, o) := main_san p {| st_world := w; st_trace := [] |} in
  (st_world s, st_trace s, o).

Definition world_after (x : World * list call * res unit) : World := fst (fst x).
Definition trace_of (x : World * list call * res unit) : list call := snd (fst x).
Definition outcome_of (x : World * list call * res unit) : res unit := snd x.

(** ** [VMwareDatastore]: the read-only facts path *)

Record FactsParams := {
  fp_datastore_name : option string;
  fp_esxi_hostname : option string
}.

(** The dictionary [read_datastore] builds. *)
Record DatastoreFacts := {
  fact_name : string;
  fact_maintenanceMode : string;
  fact_url : string;
  fact_datastore_cluster : string;
  fact_vmfs_type : string;
  fact_wwn : list string
}.

Inductive facts_result :=
| FactsExit (changed : bool) (datastores : list DatastoreFacts)
| FactsFail (msg : string).

(** Plain value, uncaught exception, or [SystemExit] from [exit_json]/[fail_json]. *)
Inductive fres (A : Type) :=
| FRet (a : A)
| FRaise (msg : string)
| FExited (r : facts_result).
Arguments FRet {A} a.
Arguments FRaise {A} msg.
Arguments FExited {A} r.

(** [read_datastore(datastore)]; [None] is Python's [None] (a failed lookup).
    The [except] clauses call [fail_json]. *)
Definition read_datastore (datastore : option Datastore) : fres DatastoreFacts :=
  match datastore with
  | None => FExited (FactsFail "'NoneType' object has no attribute 'summary'")
  | Some d =>
      let dc := match ds_parent d with
                | StoragePod n => n
                | OtherFolder _ => "N/A"
                end in
      match ds_vmfs d with
      | None => FExited (FactsFail ("'" ++ ds_info_class d ++ "' object has no attribute 'vmfs'"))
      | Some v =>
          FRet {| fact_name := ds_name d;
                  fact_maintenanceMode := ds_maintenanceMode d;
                  fact_url := ds_url d;
                  fact_datastore_cluster := dc;
                  fact_vmfs_type := vmfs_type v;
                  fact_wwn := map last_dot_segment (vmfs_extent v) |}
      end
  end.

(** [for datastore in vmware_datastores: datastores.extend([self.read_datastore(datastore)])] *)
Fixpoint read_all (l : list Datastore) : fres (list DatastoreFacts) :=
  match l with
  | [] => FRet []
  | d :: ds =>
      match read_datastore (Some d) with
      | FRet r =>
          match read_all ds with
          | FRet rs => FRet (r :: rs)
          | FRaise m => FRaise m
          | FExited e => FExited e
          end
      | FRaise m => FRaise m
      | FExited e => FExited e
      end
  end.

Definition gather_facts (p : FactsParams) (w : World) : fres (list DatastoreFacts) :=
  if truthy (fp_datastore_name p) then
    match read_datastore (find_datastore_by_name w (py_str_opt (fp_datastore_name p))) with
    | FRet r => FRet [r]
    | FRaise m => FRaise m
    | FExited e => FExited e
    end
  else if truthy (fp_esxi_hostname p) then
    match find_hostsystem_by_name w (py_str_opt (fp_esxi_hostname p)) with
    | None => FRaise "'NoneType' object has no attribute 'datastore'"
    | Some h => read_all (host_datastores w (h_name h))
    end
  else read_all (w_datastores w).

(** [main] of the facts module. *)
Definition facts_main (p : FactsParams) (w : World) : facts_result :=
  match gather_facts p w with
  | FRet l => FactsExit false l
  | FRaise m => FactsFail m
  | FExited r => r
  end.

(** ** A sample inventory

    Two hosts [esx1] and [esx2] of cluster [Cluster01]; the datastore
    [SAN_DS01] on device [naa.600508b400105e210000900000490000], mounted on
    both hosts.  The datastore folder of their datacenter is [group-s5];
    a datastore created there gets the reference [datastore-101]. *)

Definition sample_device : string := "600508b400105e210000900000490000".
Definition other_device : string := "600508b400105e210000900000500000".

Definition sample_datastore : Datastore :=
  {| ds_moid := "datastore-11"; ds_name := "SAN_DS01"; ds_maintenanceMode := "normal";
     ds_url := "ds:///vmfs/volumes/5b1f0e2a-uuid/";
     ds_parent := OtherFolder "datastore";
     ds_info_class := "vim.host.VmfsDatastoreInfo";
     ds_vmfs := Some {| vmfs_uuid := "5b1f0e2a-uuid"; vmfs_type := "VMFS";
                        vmfs_extent := ["naa." ++ sample_device] |};
     ds_host := ["esx1"; "esx2"] |}.

Definition sample_world (datastores : list Datastore) (folders : list Folder)
    (create : list CreateSpec) (expand : list ExpandSpec)
    (raises : call -> option string) : World :=
  {| w_hosts := [ {| h_name := "esx1"; h_parent := "Cluster01" |};
                  {| h_name := "esx2"; h_parent := "Cluster01" |} ];
     w_clusters := [("Cluster01", ["esx1"; "esx2"])];
     w_datastores := datastores;
     w_folders := folders;
     w_host_datastore := fun h =>
       map ds_moid (filter (fun d => existsb (String.eqb h) (ds_host d)) datastores);
     w_datastore_folder := fun _ => "group-s5";
     w_new_moid := fun _ => "datastore-101";
     w_create_options := fun _ => create;
     w_expand_options := fun n => if String.eqb n "SAN_DS01" then expand else [];
     w_raises := raises |}.

Definition sample_params (st : DsState) (device cluster : option string) : Params :=
  {| p_datastore_name := "SAN_DS01"; p_esxi_hostname := "esx1";
     p_volume_device_name := device; p_state := st;
     p_datastore_cluster_name := cluster |}.

Definition no_fault : call -> option string := fun _ => None.

(** The datastore folder [group-s5] of the sample datacenter, holding the
    datastore cluster [POD01] ([group-p1]). *)
Definition sample_folders : list Folder :=
  [ {| f_moid := "group-s5"; f_name := "datastore"; f_pod := false;
       f_childEntity := ["group-p1"] |};
    {| f_moid := "group-p1"; f_name := "POD01"; f_pod := true; f_childEntity := [] |} ].

(** [SAN_DS01] spanning both devices. *)
Definition two_extent_datastore : Datastore :=
  {| ds_moid := "datastore-11"; ds_name := "SAN_DS01"; ds_maintenanceMode := "normal";
     ds_url := "ds:///vmfs/volumes/5b1f0e2a-uuid/";
     ds_parent := OtherFolder "datastore";
     ds_info_class := "vim.host.VmfsDatastoreInfo";
     ds_vmfs := Some {| vmfs_uuid := "5b1f0e2a-uuid"; vmfs_type := "VMFS";
                        vmfs_extent := ["naa." ++ sample_device; "naa." ++ other_device] |};
     ds_host := ["esx1"; "esx2"] |}.

(** The rescans [rescan_other_hosts_in_cluster] issues for cluster members
    [hosts] when the target host is [target]. *)
Definition sibling_rescans (target : string) (hosts : list string) : list call :=
  flat_map (fun host => if negb (String.eqb host target)
                        then [RescanAllHba host; RescanVmfs host] else []) hosts.

Definition sample_create_spec : CreateSpec :=
  {| cs_volumeName := ""; cs_diskName := "naa." ++ sample_device |}.

Definition is_create (c : call) : bool :=
  match c with
  | CreateVmfsDatastore _ _ => true
  | _ => false
  end.

(** [SAN_DS01] as an NFS datastore: no VMFS information. *)
Definition nfs_datastore : Datastore :=
  {| ds_moid := "datastore-12"; ds_name := "SAN_DS01"; ds_maintenanceMode := "normal";
     ds_url := "ds:///vmfs/volumes/5b1f0e2a-uuid/";
     ds_parent := OtherFolder "datastore";
     ds_info_class := "vim.host.NasDatastoreInfo";
     ds_vmfs := None;
     ds_host := ["esx1"; "esx2"] |}.

(** [SAN_DS01] mounted on no host. *)
Definition unmounted_datastore : Datastore :=
  {| ds_moid := "datastore-11"; ds_name := "SAN_DS01"; ds_maintenanceMode := "normal";
     ds_url := "ds:///vmfs/volumes/5b1f0e2a-uuid/";
     ds_parent := OtherFolder "datastore";
     ds_info_class := "vim.host.VmfsDatastoreInfo";
     ds_vmfs := Some {| vmfs_uuid := "5b1f0e2a-uuid"; vmfs_type := "VMFS";
                        vmfs_extent := ["naa." ++ sample_device] |};
     ds_host := [] |}.

(** A datastore also named [SAN_DS01], in another datacenter, mounted on
    that datacenter's host [esx3]. *)
Definition remote_datastore : Datastore :=
  {| ds_moid := "datastore-21"; ds_name := "SAN_DS01"; ds_maintenanceMode := "normal";
     ds_url := "ds:///vmfs/volumes/6c2a1f3b-uuid/";
     ds_parent := OtherFolder "datastore";
     ds_info_class := "vim.host.VmfsDatastoreInfo";
     ds_vmfs := Some {| vmfs_uuid := "6c2a1f3b-uuid"; vmfs_type := "VMFS";
                        vmfs_extent := ["naa." ++ other_device] |};
     ds_host := ["esx3"] |}.

(** The calls that unmount or remove a datastore. *)
Definition is_unmount_or_remove (c : call) : bool :=
  match c with
  | UnmountVmfsVolume _ _ | RemoveDatastore _ _ => true
  | _ => false
  end.

(** The calls of the removal path: HBA rescans, unmounts and removals. *)
Definition is_absent_call (c : call) : bool :=
  match c with
  | RescanAllHba _ | UnmountVmfsVolume _ _ | RemoveDatastore _ _ => true
  | _ => false
  end.

(** * Proofs *)

Arguments find_hostsystem_by_name : simpl never.
Arguments find_datastore_by_name : simpl never.
Arguments get_all_hosts_by_cluster : simpl never.
Arguments normalize_device : simpl never.
Arguments last_dot_segment : simpl never.
Arguments py_contains : simpl never.
Arguments str_lower : simpl never.
#[local] Arguments String.append : simpl never.

Lemma find_hostsystem_by_name_name w n h :
  find_hostsystem_by_name w n = Some h -> h_name h = n.
Proof.
  unfold find_hostsystem_by_name. intros H.
  apply find_some in H as [_ H]. now apply String.eqb_eq.
Qed.

Lemma find_datastore_by_name_in w n d :
  find_datastore_by_name w n = Some d -> ds_name d = n /\ In d (w_datastores w).
Proof.
  unfold find_datastore_by_name. intros H.
  apply find_some in H as [Hin H]. split; [now apply String.eqb_eq | exact Hin].
Qed.

Ltac case_apply_call c :=
  destruct c; cbn;
  try destruct (find_folder_by_moid _ _);
  try destruct (find_datastore_by_name _ _).

Lemma raises_apply_call w c : w_raises (apply_call w c) = w_raises w.
Proof. case_apply_call c; reflexivity. Qed.

Lemma clusters_apply_call w c : w_clusters (apply_call w c) = w_clusters w.
Proof. case_apply_call c; reflexivity. Qed.

Lemma hosts_apply_call w c : w_hosts (apply_call w c) = w_hosts w.
Proof. case_apply_call c; reflexivity. Qed.

Lemma get_all_hosts_by_cluster_apply_call w c n :
  get_all_hosts_by_cluster (apply_call w c) n = get_all_hosts_by_cluster w n.
Proof. unfold get_all_hosts_by_cluster. now rewrite clusters_apply_call. Qed.

Ltac unfold_module :=
  unfold reconcile, main_san, init, process_state, check_datastore_host_state,
    mount_san_datastore_host, umount_san_datastore_host, ds_path_of,
    query_create_options, query_expand_options,
    bind, ret, get_world, remote, try_except, exit_json, fail_json, raise,
    py_index0, info_vmfs;
  cbn.

(** ** C8 *)

(** C8: when the ESXi host named by [esxi_hostname] is not in the inventory,
    the module fails with a message naming that host and issues no remote
    call at all (no rescan, create, expand, unmount or remove). *)
Theorem unknown_host_fails_before_any_call p w :
  find_hostsystem_by_name w (p_esxi_hostname p) = None ->
  reconcile p w =
    (w, [], Exited (FailJson ("Failed to find ESXi hostname " ++ p_esxi_hostname p ++ " "))).
Proof. intros H. unfold_module. now rewrite H. Qed.

(** ** C7 *)

(** C7: with [state=absent] and no datastore of the target name, the only
    remote call is the initial HBA rescan of the target host (no create,
    expand or remove), and the module reports [changed=false] (a fault of
    that rescan is reported as a failure). *)
Theorem absent_on_absent_is_noop p w h :
  p_state p = Absent ->
  find_hostsystem_by_name w (p_esxi_hostname p) = Some h ->
  find_datastore_by_name w (p_datastore_name p) = None ->
  reconcile p w =
    (w, [RescanAllHba (p_esxi_hostname p)],
     match w_raises w (RescanAllHba (p_esxi_hostname p)) with
     | None => Exited (ExitJson false None)
     | Some m => Exited (FailJson m)
     end).
Proof.
  intros Hst Hh Hd. pose proof (find_hostsystem_by_name_name _ _ _ Hh) as Hn.
  unfold_module. rewrite Hh. cbn. rewrite Hn.
  destruct (w_raises w (RescanAllHba (p_esxi_hostname p))); cbn; [reflexivity|].
  rewrite Hst. cbn. now rewrite Hd.
Qed.

(** ** Lower-casing *)

Lemma ascii_lower_idem c : ascii_lower (ascii_lower c) = ascii_lower c.
Proof. destruct c as [[] [] [] [] [] [] [] []]; reflexivity. Qed.

Lemma str_lower_idem s : str_lower (str_lower s) = str_lower s.
Proof.
  induction s as [|c s IH]; [reflexivity|].
  unfold str_lower; fold str_lower. now rewrite ascii_lower_idem, IH.
Qed.

Lemma normalize_device_some d :
  normalize_device (Some d) = Some (str_lower d).
Proof.
  unfold normalize_device, truthy. destruct (String.eqb d EmptyString) eqn:E; cbn.
  - apply String.eqb_eq in E. now subst.
  - reflexivity.
Qed.

Lemma normalize_device_lowered o dev :
  normalize_device o = Some dev -> str_lower dev = dev.
Proof.
  destruct o as [d|]; [|discriminate].
  rewrite normalize_device_some. intros [= <-]. apply str_lower_idem.
Qed.

Lemma existsb_eqb_In (x : string) l : existsb (String.eqb x) l = true <-> In x l.
Proof.
  rewrite existsb_exists. split.
  - intros [y [Hy E]]. apply String.eqb_eq in E. now subst.
  - intros Hx. exists x. split; [exact Hx | apply String.eqb_refl].
Qed.

(** ** C1 *)

(** C1: with [state=present], the datastore [SAN_DS01] already exists and
    the (mixed-case) device given is already its extent; the host offers an
    expand option for that device.  The documentation of [state=present]
    ("Mount datastore on host if datastore is absent else do nothing")
    makes this run a no-op, but the module queries the expand options,
    issues an expand call and reports [changed=true]. *)
Lemma C1_device_in_extents_expands :
  let x := reconcile (sample_params Present (Some "600508B400105E210000900000490000") None)
             (sample_world [sample_datastore] [] []
                [ {| es_diskName := "naa." ++ sample_device |} ] no_fault) in
  trace_of x =
    [RescanAllHba "esx1"; QueryVmfsDatastoreExpandOptions "esx1" "SAN_DS01";
     ExpandVmfsDatastore "esx1" "SAN_DS01" {| es_diskName := "naa." ++ sample_device |}] /\
  outcome_of x = Exited (ExitJson true (Some "Expanded storage on datastore SAN_DS01")).
Proof. vm_compute. split; reflexivity. Qed.

(** ** C2 *)

(** C2 (as the code has it): with [state=present], an existing VMFS
    datastore, and a lower-cased device that is not among the device
    identifiers of its extents (or no device at all), the module issues no
    call after the initial rescan (no expand query, create or expand) and
    reports [changed=false]; the inventory is left as it was. *)
Theorem present_device_not_in_extents_unchanged p w h d v :
  p_state p = Present ->
  find_hostsystem_by_name w (p_esxi_hostname p) = Some h ->
  w_raises w (RescanAllHba (p_esxi_hostname p)) = None ->
  find_datastore_by_name w (p_datastore_name p) = Some d ->
  ds_vmfs d = Some v ->
  (forall dev, normalize_device (p_volume_device_name p) = Some dev ->
     ~ In dev (map last_dot_segment (vmfs_extent v))) ->
  reconcile p w = (w, [RescanAllHba (p_esxi_hostname p)], Exited (ExitJson false None)).
Proof.
  intros Hst Hh Hr Hd Hv Hnot.
  pose proof (find_hostsystem_by_name_name _ _ _ Hh) as Hn.
  unfold_module. rewrite Hh. cbn. rewrite Hn, Hr. cbn. rewrite Hst. cbn.
  rewrite Hd. cbn. rewrite Hv. cbn.
  destruct (normalize_device (p_volume_device_name p)) as [dev|] eqn:Hdev; cbn;
    [|reflexivity].
  destruct (existsb (String.eqb dev) (map last_dot_segment (vmfs_extent v))) eqn:E;
    [|reflexivity].
  apply existsb_eqb_In in E. exfalso. exact (Hnot dev eq_refl E).
Qed.

(** Counterexample to C2 as stated: the device is not an extent of
    [SAN_DS01] and an expand option for that device exists, yet the module
    issues no expand call and reports [changed=false]. *)
Lemma C2_device_not_in_extents_no_expand :
  let w := sample_world [sample_datastore] [] []
             [ {| es_diskName := "naa." ++ other_device |} ] no_fault in
  w_expand_options w "SAN_DS01" = [ {| es_diskName := "naa." ++ other_device |} ] /\
  py_contains other_device ("naa." ++ other_device) = true /\
  reconcile (sample_params Present (Some other_device) None) w =
    (w, [RescanAllHba "esx1"], Exited (ExitJson false None)).
Proof. split; [reflexivity | split; vm_compute; reflexivity]. Qed.

(** ** Computations that never end the module themselves *)

Definition no_exit {A} (m : M A) : Prop :=
  forall s s' r, m s = (s', Exited r) -> False.

Lemma no_exit_ret {A} (a : A) : no_exit (ret a).
Proof. intros s s' r H. discriminate H. Qed.

Lemma no_exit_raise {A} msg : no_exit (A := A) (raise msg).
Proof. intros s s' r H. discriminate H. Qed.

Lemma no_exit_get_world : no_exit get_world.
Proof. intros s s' r H. discriminate H. Qed.

Lemma no_exit_remote c : no_exit (remote c).
Proof.
  intros s s' r H. unfold remote in H. destruct (w_raises _ c); discriminate H.
Qed.

Lemma no_exit_bind {A B} (m : M A) (k : A -> M B) :
  no_exit m -> (forall a, no_exit (k a)) -> no_exit (bind m k).
Proof.
  intros Hm Hk s s' r H. unfold bind in H.
  destruct (m s) as [s1 [a|e|r1]] eqn:E.
  - exact (Hk a _ _ _ H).
  - discriminate H.
  - exact (Hm _ _ _ E).
Qed.

Lemma no_exit_py_index0 {A} (l : list A) : no_exit (py_index0 l).
Proof. destruct l; [apply no_exit_raise | apply no_exit_ret]. Qed.

Lemma no_exit_info_vmfs d : no_exit (info_vmfs d).
Proof. unfold info_vmfs. destruct (ds_vmfs d); [apply no_exit_ret | apply no_exit_raise]. Qed.

Lemma no_exit_for_each {A} (l : list A) body :
  (forall x, no_exit (body x)) -> no_exit (for_each l body).
Proof.
  intros Hb. induction l as [|x xs IH]; cbn.
  - apply no_exit_ret.
  - apply no_exit_bind; [apply Hb | intros _; exact IH].
Qed.

Lemma no_exit_rescan_other r : no_exit (rescan_other_hosts_in_cluster r).
Proof.
  unfold rescan_other_hosts_in_cluster.
  apply no_exit_bind; [apply no_exit_get_world|]. intros w.
  apply no_exit_for_each. intros host.
  destruct (negb _); [|apply no_exit_ret].
  apply no_exit_bind; [apply no_exit_remote | intros _; apply no_exit_remote].
Qed.

Lemma no_exit_move r c : no_exit (move_into_datastore_cluster r c).
Proof.
  unfold move_into_datastore_cluster.
  repeat (apply no_exit_bind; [first [apply no_exit_get_world | apply no_exit_py_index0
                                      | apply no_exit_remote
                                      | destruct (find_datastore_by_moid _ _);
                                        [apply no_exit_raise | apply no_exit_remote]]
                              | intros ?]).
  apply no_exit_ret.
Qed.

Lemma no_exit_unmount_loop d :
  no_exit (for_each (ds_host d) (fun host =>
             v <- info_vmfs d ;; remote (UnmountVmfsVolume host (vmfs_uuid v)))).
Proof.
  apply no_exit_for_each. intros host.
  apply no_exit_bind; [apply no_exit_info_vmfs | intros v; apply no_exit_remote].
Qed.

Arguments rescan_other_hosts_in_cluster : simpl never.
Arguments move_into_datastore_cluster : simpl never.
Arguments for_each : simpl never.

(** Case analysis over a run, closing the branches a sub-computation
    cannot take. *)
Ltac split_run :=
  repeat (cbn;
    match goal with
    | |- context [match ?e with _ => _ end] =>
        lazymatch e with
        | for_each _ _ _ =>
            let E := fresh "E" in
            destruct e as [? [?|?|?]] eqn:E;
            [ | | exfalso; eapply no_exit_unmount_loop; exact E]
        | rescan_other_hosts_in_cluster _ _ =>
            let E := fresh "E" in
            destruct e as [? [?|?|?]] eqn:E;
            [ | | exfalso; eapply no_exit_rescan_other; exact E]
        | move_into_datastore_cluster _ _ _ =>
            let E := fresh "E" in
            destruct e as [? [?|?|?]] eqn:E;
            [ | | exfalso; eapply no_exit_move; exact E]
        | context [match _ with _ => _ end] => fail
        | _ => destruct e eqn:?
        end
    end).

Lemma unchanged_run_keeps_world p w :
  match outcome_of (reconcile p w) with
  | Exited (ExitJson false _) => world_after (reconcile p w) = w
  | _ => True
  end.
Proof.
  unfold outcome_of, world_after. unfold_module. split_run.
  all: try exact I.
  all: try reflexivity.
Qed.

(** ** C4 *)

Lemma rescan_loop_trace (target : string) hosts s s' :
  for_each hosts (fun host =>
    if negb (String.eqb host target) then
      remote (RescanAllHba host) ;; remote (RescanVmfs host)
    else ret tt) s = (s', Ret tt) ->
  st_trace s' = app (st_trace s) (sibling_rescans target hosts) /\ st_world s' = st_world s.
Proof.
  revert s. induction hosts as [|x xs IH]; intros s H.
  - cbn in H. injection H as <-. now rewrite app_nil_r.
  - unfold for_each in H; fold (@for_each string) in H.
    unfold bind at 1 in H. cbn [sibling_rescans flat_map].
    destruct (negb (String.eqb x target)).
    + unfold bind, remote in H.
      destruct (w_raises (st_world s) (RescanAllHba x)) eqn:R1; [discriminate H|].
      cbn in H. destruct (w_raises (st_world s) (RescanVmfs x)) eqn:R2; [discriminate H|].
      cbn in H. apply IH in H as [Ht Hw]. cbn in Ht, Hw.
      rewrite Ht, Hw. split; [|reflexivity].
      now rewrite <- !app_assoc.
    + cbn in H. apply IH in H as [Ht Hw]. rewrite Ht, Hw. now split.
Qed.

Lemma rescan_other_trace r s s' u :
  rescan_other_hosts_in_cluster r s = (s', Ret u) ->
  st_trace s' = app (st_trace s)
    (sibling_rescans (esxi_hostname r) (get_all_hosts_by_cluster (st_world s) (h_parent (esxi r)))).
Proof.
  unfold rescan_other_hosts_in_cluster, bind, get_world. cbn.
  destruct u. intros H. now apply rescan_loop_trace in H as [Ht _].
Qed.

(** Case analysis inside a hypothesis, innermost scrutinee first. *)
Ltac split_in H :=
  repeat (cbn in H;
    match type of H with
    | context [match ?e with _ => _ end] =>
        lazymatch e with
        | context [match _ with _ => _ end] => fail
        | _ => destruct e eqn:?
        end
    end).

Lemma move_into_datastore_cluster_effect r c s s' a :
  move_into_datastore_cluster r c s = (s', Ret a) ->
  exists t e, st_trace s' = app (st_trace s) [MoveIntoFolder t e] /\
              st_world s' = apply_call (st_world s) (MoveIntoFolder t e).
Proof.
  unfold move_into_datastore_cluster, bind, get_world, py_index0, remote, ret, raise.
  intros H.
  destruct (filter _ (w_folders (st_world s))) as [|f fs]; [discriminate H|].
  destruct (filter _ (f_childEntity f)) as [|e es]; [discriminate H|].
  destruct (filter _ (f_childEntity f)) as [|t ts]; [discriminate H|].
  destruct (find_datastore_by_moid (st_world s) t); [discriminate H|].
  destruct (w_raises (st_world s) (MoveIntoFolder t e)); [discriminate H|].
  injection H as <- _. exists t, e. split; reflexivity.
Qed.

Lemma create_path_rescans p w h :
  p_state p = Present ->
  find_hostsystem_by_name w (p_esxi_hostname p) = Some h ->
  find_datastore_by_name w (p_datastore_name p) = None ->
  match outcome_of (reconcile p w) with
  | Exited (ExitJson true _) =>
      exists pre spec,
        trace_of (reconcile p w) =
          app pre (sibling_rescans (p_esxi_hostname p)
                     (get_all_hosts_by_cluster w (h_parent h))) /\
        In (CreateVmfsDatastore (p_esxi_hostname p) spec) pre
  | _ => True
  end.
Proof.
  intros Hst Hh Hd. pose proof (find_hostsystem_by_name_name _ _ _ Hh) as Hn.
  unfold outcome_of, trace_of. unfold_module. split_run.
  all: try exact I.
  all: try congruence.
  all: repeat match goal with H : Some _ = Some _ |- _ => injection H as H; subst end.
  all: match goal with E0 : rescan_other_hosts_in_cluster _ _ = _ |- _ =>
         apply rescan_other_trace in E0 end.
  all: cbn in *.
  1: { apply move_into_datastore_cluster_effect in E as [t [e [Hext Hw]]].
         exists (st_trace s0),
           {| cs_volumeName := p_datastore_name p; cs_diskName := cs_diskName c |}.
         split;
           [rewrite E0; unfold get_all_hosts_by_cluster;
            rewrite Hw, clusters_apply_call; reflexivity|].
         rewrite Hext, <- Hn. apply in_or_app. left. cbn. tauto. }
  all: unfold get_all_hosts_by_cluster in *; cbn [w_clusters set_folders set_datastores] in *.
  all: match goal with
       | E : st_trace _ = ?a :: ?b :: CreateVmfsDatastore ?hn ?spec :: _ |- _ =>
           exists [a; b; CreateVmfsDatastore hn spec], spec; rewrite E; split;
           [reflexivity | rewrite <- Hn; cbn; tauto]
       end.
Qed.

Lemma sibling_rescans_member target hosts host :
  In host hosts -> host <> target ->
  exists mid rest,
    sibling_rescans target hosts = app mid (RescanAllHba host :: RescanVmfs host :: rest).
Proof.
  induction hosts as [|x xs IH]; intros Hin Hne; [destruct Hin|].
  cbn [sibling_rescans flat_map].
  destruct Hin as [<-|Hin].
  - apply String.eqb_neq in Hne. rewrite Hne. cbn.
    exists [], (sibling_rescans target xs). reflexivity.
  - destruct (IH Hin Hne) as [mid [rest E]]. fold (sibling_rescans target xs). rewrite E.
    exists (app (if negb (String.eqb x target) then [RescanAllHba x; RescanVmfs x] else []) mid),
      rest.
    now rewrite app_assoc.
Qed.

(** C4 (as the code has it): when [state=present] and no datastore of the
    target name exists (the create path) and the run reports
    [changed=true], a create call was issued and, after it, every host other
    than the target host in the target host's parent cluster was issued an
    HBA rescan immediately followed by a VMFS rescan. *)
Theorem create_reported_changed_rescans_siblings p w h r :
  p_state p = Present ->
  find_hostsystem_by_name w (p_esxi_hostname p) = Some h ->
  find_datastore_by_name w (p_datastore_name p) = None ->
  outcome_of (reconcile p w) = Exited (ExitJson true r) ->
  forall host, In host (get_all_hosts_by_cluster w (h_parent h)) ->
    host <> p_esxi_hostname p ->
    exists pre post spec,
      trace_of (reconcile p w) =
        app pre (RescanAllHba host :: RescanVmfs host :: post) /\
      In (CreateVmfsDatastore (p_esxi_hostname p) spec) pre.
Proof.
  intros Hst Hh Hd Hout host Hin Hne.
  pose proof (create_path_rescans p w h Hst Hh Hd) as K. rewrite Hout in K.
  destruct K as [pre [spec [Et Hc]]].
  destruct (sibling_rescans_member _ _ _ Hin Hne) as [mid [rest Es]].
  rewrite Es in Et.
  exists (app pre mid), rest, spec. split.
  - rewrite Et. now rewrite app_assoc.
  - apply in_or_app. now left.
Qed.

Lemma create_reported_changed_rescans_siblings_witness :
  exists pre post spec,
    trace_of (reconcile (sample_params Present (Some sample_device) None)
                (sample_world [] [] [sample_create_spec] [] no_fault)) =
      app pre (RescanAllHba "esx2" :: RescanVmfs "esx2" :: post) /\
    In (CreateVmfsDatastore "esx1" spec) pre.
Proof.
  apply (create_reported_changed_rescans_siblings
           (sample_params Present (Some sample_device) None)
           (sample_world [] [] [sample_create_spec] [] no_fault)
           {| h_name := "esx1"; h_parent := "Cluster01" |}
           (Some "Datastore SAN_DS01 on host esx1")).
  - reflexivity.
  - reflexivity.
  - reflexivity.
  - reflexivity.
  - cbn. right. left. reflexivity.
  - discriminate.
Defined.

(** Counterexample to C4 as stated, on both of its halves.
    - Create: the create succeeds, but the named datastore cluster [POD01]
      is not under the [datastore] folder; the module reports the failure
      without rescanning [esx2].
    - Expand: the expand of [SAN_DS01] succeeds and the module reports
      [changed=true], but the expand path never calls
      [rescan_other_hosts_in_cluster]: [esx2] is not rescanned. *)
Lemma C4_sibling_rescans_skipped :
  (let x := reconcile (sample_params Present (Some sample_device) (Some "POD01"))
              (sample_world []
                 [ {| f_moid := "group-s5"; f_name := "datastore"; f_pod := false;
                      f_childEntity := [] |} ]
                 [sample_create_spec] [] no_fault) in
   In (CreateVmfsDatastore "esx1"
         {| cs_volumeName := "SAN_DS01"; cs_diskName := "naa." ++ sample_device |})
      (trace_of x) /\
   ~ In (RescanAllHba "esx2") (trace_of x) /\
   outcome_of x =
     Exited (FailJson "Cannot mount datastore SAN_DS01 on host esx1 : list index out of range")) /\
  (let y := reconcile (sample_params Present (Some sample_device) None)
              (sample_world [sample_datastore] [] []
                 [ {| es_diskName := "naa." ++ sample_device |} ] no_fault) in
   In (ExpandVmfsDatastore "esx1" "SAN_DS01" {| es_diskName := "naa." ++ sample_device |})
      (trace_of y) /\
   ~ In (RescanAllHba "esx2") (trace_of y) /\
   outcome_of y = Exited (ExitJson true (Some "Expanded storage on datastore SAN_DS01"))).
Proof.
  vm_compute.
  split; (split; [tauto|split; [|reflexivity]]);
    intros H; repeat (destruct H as [H|H]; [discriminate H|]); exact H.
Qed.

(** ** C5 *)

Lemma for_each_cons {A} (x : A) xs body s :
  for_each (x :: xs) body s =
    match body x s with
    | (s', Ret _) => for_each xs body s'
    | (s', Raise e) => (s', Raise e)
    | (s', Exited r) => (s', Exited r)
    end.
Proof. reflexivity. Qed.

Section UnmountLoop.
Variables (d : Datastore) (v : Vmfs).
Hypothesis Hv : ds_vmfs d = Some v.

Let unmount_call host := UnmountVmfsVolume host (vmfs_uuid v).

Let body := fun host => x <- info_vmfs d ;; remote (UnmountVmfsVolume host (vmfs_uuid x)).

Lemma unmount_body_step host s :
  body host s =
    match w_raises (st_world s) (unmount_call host) with
    | Some m => ({| st_world := st_world s;
                    st_trace := app (st_trace s) [unmount_call host] |}, Raise m)
    | None => ({| st_world := apply_call (st_world s) (unmount_call host);
                  st_trace := app (st_trace s) [unmount_call host] |}, Ret tt)
    end.
Proof.
  unfold body, bind, info_vmfs, remote. rewrite Hv. cbn.
  unfold unmount_call. destruct (w_raises (st_world s) _); reflexivity.
Qed.

Lemma unmount_loop_ok hosts s :
  (forall host, In host hosts -> w_raises (st_world s) (unmount_call host) = None) ->
  exists s',
    for_each hosts body s = (s', Ret tt) /\
    st_trace s' = app (st_trace s) (map unmount_call hosts) /\
    w_raises (st_world s') = w_raises (st_world s).
Proof.
  revert s. induction hosts as [|x xs IH]; intros s Hok.
  - exists s. cbn. now rewrite app_nil_r.
  - rewrite for_each_cons, unmount_body_step, (Hok x (or_introl eq_refl)).
    cbv beta iota.
    destruct (IH {| st_world := apply_call (st_world s) (unmount_call x);
                    st_trace := app (st_trace s) [unmount_call x] |})
      as [s' [E [Et Er]]].
    { intros host Hin. cbn [st_world]. rewrite raises_apply_call. apply Hok. now right. }
    exists s'. rewrite E. cbn [st_world st_trace] in Et, Er. rewrite raises_apply_call in Er.
    split; [reflexivity|split; [|exact Er]].
    rewrite Et, <- app_assoc. reflexivity.
Qed.

Lemma unmount_loop_fault pre hi post m s :
  (forall host, In host pre -> w_raises (st_world s) (unmount_call host) = None) ->
  w_raises (st_world s) (unmount_call hi) = Some m ->
  exists s',
    for_each (app pre (hi :: post)) body s = (s', Raise m) /\
    st_trace s' = app (st_trace s) (app (map unmount_call pre) [unmount_call hi]).
Proof.
  revert s. induction pre as [|x xs IH]; intros s Hok Hf.
  - cbn [app]. rewrite for_each_cons, unmount_body_step, Hf. cbv beta iota.
    eexists. split; reflexivity.
  - cbn [app]. rewrite for_each_cons, unmount_body_step, (Hok x (or_introl eq_refl)).
    cbv beta iota.
    destruct (IH {| st_world := apply_call (st_world s) (unmount_call x);
                    st_trace := app (st_trace s) [unmount_call x] |})
      as [s' [E Et]].
    { intros host Hin. cbn [st_world]. rewrite raises_apply_call. apply Hok. now right. }
    { cbn [st_world]. now rewrite raises_apply_call. }
    exists s'. rewrite E. split; [reflexivity|].
    rewrite Et. cbn [st_trace]. now rewrite <- !app_assoc.
Qed.
End UnmountLoop.

(** C5 (as the code has it): with [state=absent] and an existing VMFS
    datastore mounted on hosts [ds_host d], the module issues an unmount of
    the datastore's VMFS UUID to each mounting host in order, and only then
    the removal on the target host.  If the unmount on some host [hi]
    raises [m], no later unmount and no removal is issued, and the failure
    message names the datastore and the target host (not [hi]), followed by
    [m]. *)
Theorem absent_unmounts_then_removes p w h d v :
  p_state p = Absent ->
  find_hostsystem_by_name w (p_esxi_hostname p) = Some h ->
  w_raises w (RescanAllHba (p_esxi_hostname p)) = None ->
  find_datastore_by_name w (p_datastore_name p) = Some d ->
  ds_vmfs d = Some v ->
  let hn := p_esxi_hostname p in
  let dn := p_datastore_name p in
  let unmount host := UnmountVmfsVolume host (vmfs_uuid v) in
  let err := "Cannot umount datastore " ++ dn ++ " from host " ++ hn in
  ((forall host, In host (ds_host d) -> w_raises w (unmount host) = None) ->
     trace_of (reconcile p w) =
       RescanAllHba hn :: app (map unmount (ds_host d)) [RemoveDatastore hn dn] /\
     outcome_of (reconcile p w) =
       match w_raises w (RemoveDatastore hn dn) with
       | None => Exited (ExitJson true (Some ("Datastore " ++ dn ++ " on host " ++ hn)))
       | Some m => Exited (FailJson (err ++ ": " ++ m))
       end) /\
  (forall pre hi post m,
     ds_host d = app pre (hi :: post) ->
     (forall host, In host pre -> w_raises w (unmount host) = None) ->
     w_raises w (unmount hi) = Some m ->
     trace_of (reconcile p w) = RescanAllHba hn :: app (map unmount pre) [unmount hi] /\
     outcome_of (reconcile p w) = Exited (FailJson (err ++ ": " ++ m))).
Proof.
  intros Hst Hh Hr Hd Hv hn dn unmount err. subst hn dn unmount err.
  pose proof (find_hostsystem_by_name_name _ _ _ Hh) as Hn.
  destruct (find_datastore_by_name_in _ _ _ Hd) as [Hdn _].
  unfold_module. rewrite Hh. cbn. rewrite Hn, Hr. cbn. rewrite Hst. cbn. rewrite Hd. cbn.
  match goal with
  | |- context [for_each ?l ?b ?s] =>
      replace (for_each l b s) with
        (for_each l (fun host => x <- info_vmfs d ;;
                                 remote (UnmountVmfsVolume host (vmfs_uuid x))) s)
        by reflexivity
  end.
  rewrite Hdn. split.
  - intros Hok.
    destruct (unmount_loop_ok d v Hv (ds_host d)
                {| st_world := w; st_trace := [RescanAllHba (p_esxi_hostname p)] |} Hok)
      as [s' [E [Et Er]]].
    rewrite E. cbn in Er. cbn. rewrite Er.
    destruct (w_raises w (RemoveDatastore (p_esxi_hostname p) (p_datastore_name p)));
      cbn; rewrite Et; split; reflexivity.
  - intros pre hi post m Eh Hok Hf. rewrite Eh.
    destruct (unmount_loop_fault d v Hv pre hi post m
                {| st_world := w; st_trace := [RescanAllHba (p_esxi_hostname p)] |} Hok Hf)
      as [s' [E Et]].
    rewrite E. cbn. rewrite Et. split; reflexivity.
Qed.

Lemma absent_unmounts_then_removes_witness :
  trace_of (reconcile (sample_params Absent None None)
              (sample_world [sample_datastore] [] [] [] no_fault)) =
    [RescanAllHba "esx1"; UnmountVmfsVolume "esx1" "5b1f0e2a-uuid";
     UnmountVmfsVolume "esx2" "5b1f0e2a-uuid"; RemoveDatastore "esx1" "SAN_DS01"].
Proof.
  refine (proj1 (proj1 (absent_unmounts_then_removes (sample_params Absent None None)
           (sample_world [sample_datastore] [] [] [] no_fault)
           {| h_name := "esx1"; h_parent := "Cluster01" |} sample_datastore
           {| vmfs_uuid := "5b1f0e2a-uuid"; vmfs_type := "VMFS";
              vmfs_extent := ["naa." ++ sample_device] |}
           eq_refl eq_refl eq_refl eq_refl eq_refl) _)).
  intros host _. reflexivity.
Defined.

(** Counterexample to C5 as stated: [SAN_DS01] is mounted on [esx1] and
    [esx2], the target is [esx1], and the unmount on [esx2] raises.  No
    removal is issued, but the failure message does not name [esx2]. *)
Lemma C5_failure_names_target_not_failing_host :
  let x := reconcile (sample_params Absent None None)
             (sample_world [sample_datastore] [] [] []
                (fun c => match c with
                          | UnmountVmfsVolume "esx2" _ => Some "The resource is in use."
                          | _ => None
                          end)) in
  trace_of x = [RescanAllHba "esx1"; UnmountVmfsVolume "esx1" "5b1f0e2a-uuid";
                UnmountVmfsVolume "esx2" "5b1f0e2a-uuid"] /\
  outcome_of x =
    Exited (FailJson "Cannot umount datastore SAN_DS01 from host esx1: The resource is in use.") /\
  py_contains "esx2"
    "Cannot umount datastore SAN_DS01 from host esx1: The resource is in use." = false.
Proof. vm_compute. split; [reflexivity | split; reflexivity]. Qed.

(** ** C6 and C10 *)

(** Computations that only append calls other than creates to the trace. *)
Definition appends_no_create {A} (m : M A) : Prop :=
  forall s s' x, m s = (s', x) ->
    exists ext, st_trace s' = app (st_trace s) ext /\ Forall (fun c => is_create c = false) ext.

Lemma appends_no_create_ret {A} (a : A) : appends_no_create (ret a).
Proof. intros s s' x H. injection H as <- _. exists []. now rewrite app_nil_r. Qed.

Lemma appends_no_create_raise {A} msg : appends_no_create (A := A) (raise msg).
Proof. intros s s' x H. injection H as <- _. exists []. now rewrite app_nil_r. Qed.

Lemma appends_no_create_get_world : appends_no_create get_world.
Proof. intros s s' x H. injection H as <- _. exists []. now rewrite app_nil_r. Qed.

Lemma appends_no_create_py_index0 {A} (l : list A) : appends_no_create (py_index0 l).
Proof. destruct l; [apply appends_no_create_raise | apply appends_no_create_ret]. Qed.

Lemma appends_no_create_remote c : is_create c = false -> appends_no_create (remote c).
Proof.
  intros Hc s s' x H. unfold remote in H.
  destruct (w_raises _ c); injection H as <- _; exists [c]; cbn; auto.
Qed.

Lemma appends_no_create_bind {A B} (m : M A) (k : A -> M B) :
  appends_no_create m -> (forall a, appends_no_create (k a)) -> appends_no_create (bind m k).
Proof.
  intros Hm Hk s s' x H. unfold bind in H.
  destruct (m s) as [s1 [a|e|r1]] eqn:E; destruct (Hm _ _ _ E) as [e1 [Et1 F1]].
  - destruct (Hk a _ _ _ H) as [e2 [Et2 F2]].
    exists (app e1 e2). rewrite Et2, Et1, app_assoc. split; [reflexivity|].
    apply Forall_app. now split.
  - injection H as <- _. now exists e1.
  - injection H as <- _. now exists e1.
Qed.

Lemma appends_no_create_for_each {A} (l : list A) body :
  (forall x, appends_no_create (body x)) -> appends_no_create (for_each l body).
Proof.
  intros Hb. induction l as [|x xs IH]; cbn.
  - apply appends_no_create_ret.
  - apply appends_no_create_bind; [apply Hb | intros _; exact IH].
Qed.

Lemma appends_no_create_rescan_other r : appends_no_create (rescan_other_hosts_in_cluster r).
Proof.
  unfold rescan_other_hosts_in_cluster.
  apply appends_no_create_bind; [apply appends_no_create_get_world|]. intros w.
  apply appends_no_create_for_each. intros host.
  destruct (negb _); [|apply appends_no_create_ret].
  apply appends_no_create_bind;
    [apply appends_no_create_remote; reflexivity
    | intros _; apply appends_no_create_remote; reflexivity].
Qed.

Lemma appends_no_create_move r c : appends_no_create (move_into_datastore_cluster r c).
Proof.
  unfold move_into_datastore_cluster.
  repeat (apply appends_no_create_bind;
          [first [apply appends_no_create_get_world | apply appends_no_create_py_index0
                 | apply appends_no_create_remote; reflexivity
                 | destruct (find_datastore_by_moid _ _);
                   [apply appends_no_create_raise
                   | apply appends_no_create_remote; reflexivity]] | intros ?]).
  apply appends_no_create_ret.
Qed.

Lemma rescan_loop_ok (target : string) hosts s :
  (forall host, w_raises (st_world s) (RescanAllHba host) = None /\
                w_raises (st_world s) (RescanVmfs host) = None) ->
  exists s',
    for_each hosts (fun host =>
      if negb (String.eqb host target) then
        remote (RescanAllHba host) ;; remote (RescanVmfs host)
      else ret tt) s = (s', Ret tt).
Proof.
  revert s. induction hosts as [|x xs IH]; intros s Hok.
  - now exists s.
  - rewrite for_each_cons.
    destruct (negb (String.eqb x target)).
    + unfold bind, remote. destruct (Hok x) as [H1 H2]. rewrite H1. cbn. rewrite H2. cbn.
      apply IH. intros host. cbn. apply Hok.
    + cbn. now apply IH.
Qed.

Lemma rescan_other_ok r s :
  (forall host, w_raises (st_world s) (RescanAllHba host) = None /\
                w_raises (st_world s) (RescanVmfs host) = None) ->
  exists s', rescan_other_hosts_in_cluster r s = (s', Ret tt).
Proof.
  intros Hok. unfold rescan_other_hosts_in_cluster, bind at 1, get_world.
  cbv beta iota. now apply rescan_loop_ok.
Qed.

(** The lookups of the move into datastore cluster [cl] succeed in [w]:
    the first folder named [datastore] has a child named [dn] and a child
    named [cl], the latter not a datastore, and the move does not raise. *)
Definition move_succeeds (w : World) (dn cl : string) : Prop :=
  exists f fs m ms t ts,
    filter (fun f => String.eqb (f_name f) "datastore") (w_folders w) = f :: fs /\
    filter (has_name w dn) (f_childEntity f) = m :: ms /\
    filter (has_name w cl) (f_childEntity f) = t :: ts /\
    find_datastore_by_moid w t = None /\
    w_raises w (MoveIntoFolder t m) = None.

Lemma move_ok r cl s f fs m ms t ts :
  filter (fun f => String.eqb (f_name f) "datastore") (w_folders (st_world s)) = f :: fs ->
  filter (has_name (st_world s) (datastore_name r)) (f_childEntity f) = m :: ms ->
  filter (has_name (st_world s) cl) (f_childEntity f) = t :: ts ->
  find_datastore_by_moid (st_world s) t = None ->
  w_raises (st_world s) (MoveIntoFolder t m) = None ->
  move_into_datastore_cluster r cl s =
    ({| st_world := apply_call (st_world s) (MoveIntoFolder t m);
        st_trace := app (st_trace s) [MoveIntoFolder t m] |},
     Ret ("Datastore " ++ datastore_name r ++ " of cluster " ++ cl ++ " on host "
          ++ esxi_hostname r ++ " : " ++ "None")).
Proof.
  intros Hf Hs Ht Hd Hr.
  unfold move_into_datastore_cluster, bind at 1, get_world. cbv beta iota.
  rewrite Hf. unfold py_index0 at 1, ret at 1, bind at 1. cbv beta iota.
  rewrite Hs. unfold py_index0 at 1, ret at 1, bind at 1. cbv beta iota.
  rewrite Ht. unfold py_index0 at 1, ret at 1, bind at 1. cbv beta iota.
  rewrite Hd. unfold bind, remote. rewrite Hr. reflexivity.
Qed.

(** C6 (as the code has it): with [state=present], no datastore of the
    target name and a device [dev], the module builds the path
    ["/vmfs/devices/disks/naa." ++ lower(dev)] and queries the create
    options for it.  With no option, it fails without a create call.
    Otherwise it issues exactly one create call, whose spec is the first
    option with its volume name replaced by the datastore name; it reports
    [changed=true] when that create and the sibling rescans succeed and
    either no datastore cluster is named, or one is and the move of the new
    datastore into it succeeds. *)
Theorem present_absent_creates_from_first_option p w h dev :
  p_state p = Present ->
  find_hostsystem_by_name w (p_esxi_hostname p) = Some h ->
  w_raises w (RescanAllHba (p_esxi_hostname p)) = None ->
  find_datastore_by_name w (p_datastore_name p) = None ->
  p_volume_device_name p = Some dev ->
  let hn := p_esxi_hostname p in
  let dn := p_datastore_name p in
  let path := "/vmfs/devices/disks/naa." ++ str_lower dev in
  let err := "Cannot mount datastore " ++ dn ++ " on host " ++ hn in
  w_raises w (QueryVmfsDatastoreCreateOptions hn path) = None ->
  (w_create_options w path = [] ->
     reconcile p w =
       (w, [RescanAllHba hn; QueryVmfsDatastoreCreateOptions hn path],
        Exited (FailJson (err ++ " : list index out of range")))) /\
  (forall opt0 rest, w_create_options w path = opt0 :: rest ->
     let spec := {| cs_volumeName := dn; cs_diskName := cs_diskName opt0 |} in
     (exists post,
        trace_of (reconcile p w) =
          RescanAllHba hn :: QueryVmfsDatastoreCreateOptions hn path ::
          CreateVmfsDatastore hn spec :: post /\
        Forall (fun c => is_create c = false) post) /\
     (w_raises w (CreateVmfsDatastore hn spec) = None ->
      (forall host, w_raises w (RescanAllHba host) = None /\ w_raises w (RescanVmfs host) = None) ->
      (truthy (p_datastore_cluster_name p) = false ->
       outcome_of (reconcile p w) =
         Exited (ExitJson true (Some ("Datastore " ++ dn ++ " on host " ++ hn)))) /\
      (forall cl, p_datastore_cluster_name p = Some cl -> cl <> "" ->
       move_succeeds (apply_call w (CreateVmfsDatastore hn spec)) dn cl ->
       outcome_of (reconcile p w) =
         Exited (ExitJson true (Some ("Datastore " ++ dn ++ " of cluster " ++ cl
                                      ++ " on host " ++ hn ++ " : " ++ "None")))))).
Proof.
  intros Hst Hh Hr Hd Hdev hn dn path err Hq. subst hn dn path err.
  pose proof (find_hostsystem_by_name_name _ _ _ Hh) as Hn.
  unfold_module. rewrite Hh. cbn. rewrite Hn, Hr. cbn. rewrite Hst. cbn. rewrite Hd. cbn.
  rewrite Hdev, normalize_device_some. cbn. rewrite Hq. cbn.
  split.
  - intros E. now rewrite E.
  - intros opt0 rest E. rewrite E. cbn. split.
    + split_run.
      all: repeat match goal with
             | E : move_into_datastore_cluster _ _ _ = _ |- _ =>
                 apply appends_no_create_move in E; destruct E as [? [? ?]]
             | E : rescan_other_hosts_in_cluster _ _ = _ |- _ =>
                 apply appends_no_create_rescan_other in E; destruct E as [? [? ?]]
             end.
      all: cbn in *.
      all: repeat match goal with H : st_trace ?s = _ |- context [st_trace ?s] => rewrite H end.
      all: eexists; split; [cbn; reflexivity|].
      all: repeat (apply Forall_app; split); auto.
    + intros Hc Hrs. rewrite Hc. cbn. split.
      * intros Ht.
        destruct (p_datastore_cluster_name p) as [cl|] eqn:Ecl; cbn in Ht |- *;
          [rewrite Ht; cbn|].
        all: match goal with
             | |- context [rescan_other_hosts_in_cluster ?r ?s] =>
                 destruct (rescan_other_ok r s) as [s' Es]; [exact Hrs|rewrite Es]
             end.
        all: reflexivity.
      * intros cl Ecl Hne [f [fs [m [ms [t [ts [Hf [Hs [Ht [Hdt Hmv]]]]]]]]]].
        rewrite Ecl. apply String.eqb_neq in Hne. cbn. rewrite Hne. cbn.
        match goal with
        | |- context [move_into_datastore_cluster ?r ?c ?s] =>
            rewrite (move_ok r c s f fs m ms t ts Hf Hs Ht Hdt Hmv)
        end.
        cbn.
        match goal with
        | |- context [rescan_other_hosts_in_cluster ?r ?s] =>
            destruct (rescan_other_ok r s) as [s' Es];
              [intros host; cbn;
               repeat match goal with
                      | |- context [match ?e with Some _ => _ | None => _ end] => destruct e
                      end; apply Hrs
              |rewrite Es]
        end.
        reflexivity.
Qed.

Lemma present_absent_creates_from_first_option_witness :
  outcome_of (reconcile (sample_params Present (Some sample_device) None)
                (sample_world [] [] [sample_create_spec] [] no_fault)) =
    Exited (ExitJson true (Some "Datastore SAN_DS01 on host esx1")) /\
  outcome_of (reconcile (sample_params Present (Some sample_device) (Some "POD01"))
                (sample_world [] sample_folders [sample_create_spec] [] no_fault)) =
    Exited (ExitJson true (Some "Datastore SAN_DS01 of cluster POD01 on host esx1 : None")).
Proof.
  split.
  - refine (proj1 (proj2 (proj2 (present_absent_creates_from_first_option
                                   (sample_params Present (Some sample_device) None)
                                   (sample_world [] [] [sample_create_spec] [] no_fault)
                                   {| h_name := "esx1"; h_parent := "Cluster01" |}
                                   sample_device _ _ _ _ _ _)
                                sample_create_spec [] _) _ _) eq_refl).
    all: try reflexivity.
    intros host. split; reflexivity.
  - refine (proj2 (proj2 (proj2 (present_absent_creates_from_first_option
                                   (sample_params Present (Some sample_device) (Some "POD01"))
                                   (sample_world [] sample_folders [sample_create_spec] [] no_fault)
                                   {| h_name := "esx1"; h_parent := "Cluster01" |}
                                   sample_device _ _ _ _ _ _)
                                sample_create_spec [] _) _ _) "POD01" eq_refl _ _).
    all: try reflexivity.
    + intros host. split; reflexivity.
    + discriminate.
    + exists {| f_moid := "group-s5"; f_name := "datastore"; f_pod := false;
                f_childEntity := ["group-p1"; "datastore-101"] |},
        [], "datastore-101", [], "group-p1", [].
      repeat split; reflexivity.
Defined.

(** Counterexample to C6 as stated: the device is not visible to the host,
    so the create-options query returns no option; indexing the empty list
    fails the run without any create call and without [changed=true]. *)
Lemma C6_empty_create_options_fails :
  let x := reconcile (sample_params Present (Some sample_device) None)
             (sample_world [] [] [] [] no_fault) in
  trace_of x =
    [RescanAllHba "esx1";
     QueryVmfsDatastoreCreateOptions "esx1" ("/vmfs/devices/disks/naa." ++ sample_device)] /\
  outcome_of x =
    Exited (FailJson "Cannot mount datastore SAN_DS01 on host esx1 : list index out of range").
Proof. vm_compute. split; reflexivity. Qed.

(** C10: with [state=present], no datastore of the target name and no
    [volume_device_name], the module still builds a device path, from
    [str(None)], and queries the create options for
    ["/vmfs/devices/disks/naa.None"] right after the HBA rescan; a fault
    of that query is reported as a mount failure carrying the fault
    message. *)
Theorem omitted_device_queries_naa_none p w h :
  p_state p = Present ->
  find_hostsystem_by_name w (p_esxi_hostname p) = Some h ->
  w_raises w (RescanAllHba (p_esxi_hostname p)) = None ->
  find_datastore_by_name w (p_datastore_name p) = None ->
  p_volume_device_name p = None ->
  let hn := p_esxi_hostname p in
  let dn := p_datastore_name p in
  let path := "/vmfs/devices/disks/naa.None" in
  (exists post,
     trace_of (reconcile p w) =
       RescanAllHba hn :: QueryVmfsDatastoreCreateOptions hn path :: post) /\
  (forall m, w_raises w (QueryVmfsDatastoreCreateOptions hn path) = Some m ->
     reconcile p w =
       (w, [RescanAllHba hn; QueryVmfsDatastoreCreateOptions hn path],
        Exited (FailJson (("Cannot mount datastore " ++ dn ++ " on host " ++ hn) ++ " : " ++ m)))).
Proof.
  intros Hst Hh Hr Hd Hdev hn dn path. subst hn dn path.
  pose proof (find_hostsystem_by_name_name _ _ _ Hh) as Hn.
  unfold_module. rewrite Hh. cbn. rewrite Hn, Hr. cbn. rewrite Hst. cbn. rewrite Hd. cbn.
  rewrite Hdev. cbn. split.
  - split_run.
    all: repeat match goal with
           | E : move_into_datastore_cluster _ _ _ = _ |- _ =>
               apply appends_no_create_move in E; destruct E as [? [? ?]]
           | E : rescan_other_hosts_in_cluster _ _ = _ |- _ =>
               apply appends_no_create_rescan_other in E; destruct E as [? [? ?]]
           end.
    all: cbn in *.
    all: repeat match goal with H : st_trace ?s = _ |- context [st_trace ?s] => rewrite H end.
    all: eexists; cbn; reflexivity.
  - intros m Hq.
    change "/vmfs/devices/disks/naa.None" with ("/vmfs/devices/disks/naa." ++ py_str_opt (normalize_device None)) in Hq.
    rewrite Hq. reflexivity.
Qed.

Lemma omitted_device_queries_naa_none_witness :
  exists post,
    trace_of (reconcile (sample_params Present None None)
                (sample_world [] [] [] [] no_fault)) =
      RescanAllHba "esx1" ::
      QueryVmfsDatastoreCreateOptions "esx1" "/vmfs/devices/disks/naa.None" :: post.
Proof.
  refine (proj1 (omitted_device_queries_naa_none
                   (sample_params Present None None)
                   (sample_world [] [] [] [] no_fault)
                   {| h_name := "esx1"; h_parent := "Cluster01" |} _ _ _ _ _)).
  all: reflexivity.
Defined.

(** ** C9 *)

#[local] Arguments read_datastore : simpl never.

Lemma read_datastore_exit od e :
  read_datastore od = FExited e -> exists m, e = FactsFail m.
Proof.
  unfold read_datastore.
  destruct od as [d|]; [destruct (ds_vmfs d)|]; intros H; inversion H; eauto.
Qed.

Lemma read_datastore_ok d r :
  read_datastore (Some d) = FRet r ->
  exists v, ds_vmfs d = Some v /\
    r = {| fact_name := ds_name d;
           fact_maintenanceMode := ds_maintenanceMode d;
           fact_url := ds_url d;
           fact_datastore_cluster := match ds_parent d with
                                     | StoragePod n => n
                                     | OtherFolder _ => "N/A"
                                     end;
           fact_vmfs_type := vmfs_type v;
           fact_wwn := map last_dot_segment (vmfs_extent v) |}.
Proof.
  unfold read_datastore. destruct (ds_vmfs d) as [v|]; intros H; inversion H; eauto.
Qed.

Lemma read_all_exit l e : read_all l = FExited e -> exists m, e = FactsFail m.
Proof.
  revert e. induction l as [|d ds IH]; intros e; cbn; [discriminate|].
  destruct (read_datastore (Some d)) eqn:Er; [destruct (read_all ds) eqn:Ea|..];
    intros H; inversion H; subst; eauto using read_datastore_exit.
Qed.

Lemma read_all_ok l rs :
  read_all l = FRet rs ->
  Forall (fun r => exists d v, In d l /\ ds_vmfs d = Some v /\
    r = {| fact_name := ds_name d;
           fact_maintenanceMode := ds_maintenanceMode d;
           fact_url := ds_url d;
           fact_datastore_cluster := match ds_parent d with
                                     | StoragePod n => n
                                     | OtherFolder _ => "N/A"
                                     end;
           fact_vmfs_type := vmfs_type v;
           fact_wwn := map last_dot_segment (vmfs_extent v) |}) rs.
Proof.
  revert rs. induction l as [|d ds IH]; intros rs; cbn.
  - intros H. injection H as <-. constructor.
  - destruct (read_datastore (Some d)) as [r| |] eqn:Er; [|discriminate..].
    destruct (read_all ds) as [rs'| |]; [|discriminate..].
    intros H. injection H as <-. constructor.
    + destruct (read_datastore_ok _ _ Er) as [v [Hv ->]]. exists d, v. auto.
    + eapply Forall_impl; [|apply IH; reflexivity].
      intros r0 [d' [v [Hin Hr]]]. exists d', v. auto.
Qed.

(** C9: a run of the facts module that exits normally reports
    [changed=false] and a list of records, each built from a VMFS datastore
    of the inventory: its name, maintenance mode and URL, the name of its
    parent storage pod or ["N/A"], its VMFS type, and the last
    dot-separated segment of each extent's device name. *)
Theorem facts_success_records p w c l :
  facts_main p w = FactsExit c l ->
  c = false /\
  Forall (fun r => exists d v, In d (w_datastores w) /\ ds_vmfs d = Some v /\
    r = {| fact_name := ds_name d;
           fact_maintenanceMode := ds_maintenanceMode d;
           fact_url := ds_url d;
           fact_datastore_cluster := match ds_parent d with
                                     | StoragePod n => n
                                     | OtherFolder _ => "N/A"
                                     end;
           fact_vmfs_type := vmfs_type v;
           fact_wwn := map last_dot_segment (vmfs_extent v) |}) l.
Proof.
  unfold facts_main, gather_facts.
  destruct (truthy (fp_datastore_name p)).
  - destruct (find_datastore_by_name w (py_str_opt (fp_datastore_name p))) as [d|] eqn:Ef;
      [|cbn; discriminate].
    destruct (read_datastore (Some d)) as [r| |] eqn:Er; [|discriminate|].
    + intros H. injection H as <- <-. split; [reflexivity|].
      destruct (find_datastore_by_name_in _ _ _ Ef) as [_ Hin].
      destruct (read_datastore_ok _ _ Er) as [v [Hv ->]].
      constructor; [|constructor]. exists d, v. auto.
    + intros ->. destruct (read_datastore_exit _ _ Er) as [m E]. discriminate.
  - assert (Hall : forall l0, incl l0 (w_datastores w) ->
              match read_all l0 with
              | FRet l => FactsExit false l
              | FRaise m => FactsFail m
              | FExited r => r
              end = FactsExit c l ->
              c = false /\
              Forall (fun r => exists d v, In d (w_datastores w) /\ ds_vmfs d = Some v /\
                r = {| fact_name := ds_name d;
                       fact_maintenanceMode := ds_maintenanceMode d;
                       fact_url := ds_url d;
                       fact_datastore_cluster := match ds_parent d with
                                                 | StoragePod n => n
                                                 | OtherFolder _ => "N/A"
                                                 end;
                       fact_vmfs_type := vmfs_type v;
                       fact_wwn := map last_dot_segment (vmfs_extent v) |}) l).
    { intros l0 Hincl. destruct (read_all l0) as [rs|m|e] eqn:Ea.
      - intros H. injection H as <- <-. split; [reflexivity|].
        eapply Forall_impl; [|apply (read_all_ok _ _ Ea)].
        intros r [d [v [Hin Hr]]]. exists d, v. auto.
      - discriminate.
      - intros ->. destruct (read_all_exit _ _ Ea) as [m E]. discriminate. }
    destruct (truthy (fp_esxi_hostname p)).
    + destruct (find_hostsystem_by_name w _) as [h|]; [|discriminate].
      apply Hall. intros d Hd. unfold host_datastores in Hd.
      apply in_flat_map in Hd as [m [_ Hm]].
      destruct (find_datastore_by_moid w m) as [d'|] eqn:Ed; [|destruct Hm].
      destruct Hm as [<-|[]]. unfold find_datastore_by_moid in Ed.
      now apply find_some in Ed as [Hin _].
    + apply Hall. intros d Hd. exact Hd.
Qed.

(** ** Instances of the theorems on the sample inventory *)

Lemma unknown_host_fails_before_any_call_witness :
  reconcile {| p_datastore_name := "SAN_DS01"; p_esxi_hostname := "esx9";
               p_volume_device_name := None; p_state := Present;
               p_datastore_cluster_name := None |}
    (sample_world [] [] [] [] no_fault) =
    (sample_world [] [] [] [] no_fault, [],
     Exited (FailJson "Failed to find ESXi hostname esx9 ")).
Proof.
  refine (unknown_host_fails_before_any_call
            {| p_datastore_name := "SAN_DS01"; p_esxi_hostname := "esx9";
               p_volume_device_name := None; p_state := Present;
               p_datastore_cluster_name := None |}
            (sample_world [] [] [] [] no_fault) _).
  reflexivity.
Defined.

Lemma absent_on_absent_is_noop_witness :
  reconcile (sample_params Absent None None) (sample_world [] [] [] [] no_fault) =
    (sample_world [] [] [] [] no_fault, [RescanAllHba "esx1"], Exited (ExitJson false None)).
Proof.
  refine (absent_on_absent_is_noop (sample_params Absent None None)
            (sample_world [] [] [] [] no_fault)
            {| h_name := "esx1"; h_parent := "Cluster01" |} _ _ _).
  all: reflexivity.
Defined.

Lemma present_device_not_in_extents_unchanged_witness :
  reconcile (sample_params Present (Some other_device) None)
    (sample_world [sample_datastore] [] [] [] no_fault) =
    (sample_world [sample_datastore] [] [] [] no_fault, [RescanAllHba "esx1"],
     Exited (ExitJson false None)).
Proof.
  refine (present_device_not_in_extents_unchanged
            (sample_params Present (Some other_device) None)
            (sample_world [sample_datastore] [] [] [] no_fault)
            {| h_name := "esx1"; h_parent := "Cluster01" |}
            sample_datastore
            {| vmfs_uuid := "5b1f0e2a-uuid"; vmfs_type := "VMFS";
               vmfs_extent := ["naa." ++ sample_device] |} _ _ _ _ _ _).
  1-5: reflexivity.
  intros dev E. vm_compute in E. injection E as <-. vm_compute.
  intros [H|H]; [discriminate H|exact H].
Defined.

Lemma facts_success_records_witness :
  facts_main {| fp_datastore_name := None; fp_esxi_hostname := None |}
    (sample_world [sample_datastore] [] [] [] no_fault) =
    FactsExit false
      [ {| fact_name := "SAN_DS01"; fact_maintenanceMode := "normal";
           fact_url := "ds:///vmfs/volumes/5b1f0e2a-uuid/";
           fact_datastore_cluster := "N/A"; fact_vmfs_type := "VMFS";
           fact_wwn := [sample_device] |} ] /\
  exists d, In d (w_datastores (sample_world [sample_datastore] [] [] [] no_fault)) /\
            ds_name d = "SAN_DS01".
Proof.
  assert (E : facts_main {| fp_datastore_name := None; fp_esxi_hostname := None |}
                (sample_world [sample_datastore] [] [] [] no_fault) =
              FactsExit false
                [ {| fact_name := "SAN_DS01"; fact_maintenanceMode := "normal";
                     fact_url := "ds:///vmfs/volumes/5b1f0e2a-uuid/";
                     fact_datastore_cluster := "N/A"; fact_vmfs_type := "VMFS";
                     fact_wwn := [sample_device] |} ]) by (vm_compute; reflexivity).
  split; [exact E|].
  destruct (facts_success_records _ _ _ _ E) as [_ F].
  inversion F as [|r rs Hr _ Hrs]. destruct Hr as (d & v & Hin & _ & Hd).
  exists d. split; [exact Hin|].
  apply (f_equal fact_name) in Hd. cbn in Hd. now rewrite Hd.
Defined.

(** * Further properties of the modules *)

(** ** Parameters and the first calls *)

(** X1: [__init__] lower-cases a given device name, so the module behaves
    the same for a device name and for its lower-cased form. *)
Theorem device_name_case_insensitive p w :
  reconcile p w =
  reconcile {| p_datastore_name := p_datastore_name p;
               p_esxi_hostname := p_esxi_hostname p;
               p_volume_device_name := option_map str_lower (p_volume_device_name p);
               p_state := p_state p;
               p_datastore_cluster_name := p_datastore_cluster_name p |} w.
Proof.
  assert (E : normalize_device (option_map str_lower (p_volume_device_name p)) =
              normalize_device (p_volume_device_name p)).
  { destruct (p_volume_device_name p) as [d|]; [|reflexivity].
    cbn [option_map]. rewrite !normalize_device_some, str_lower_idem. reflexivity. }
  unfold reconcile, main_san, init.
  cbn [p_datastore_name p_esxi_hostname p_volume_device_name p_state p_datastore_cluster_name].
  now rewrite E.
Qed.

(** X2: when the HBA rescan of the target host raises, [process_state]
    reports the fault message as it is and the module issues no other
    call, whatever the state. *)
Theorem initial_rescan_fault_fails p w h m :
  find_hostsystem_by_name w (p_esxi_hostname p) = Some h ->
  w_raises w (RescanAllHba (p_esxi_hostname p)) = Some m ->
  reconcile p w = (w, [RescanAllHba (p_esxi_hostname p)], Exited (FailJson m)).
Proof.
  intros Hh Hr. pose proof (find_hostsystem_by_name_name _ _ _ Hh) as Hn.
  unfold_module. rewrite Hh. cbn. rewrite Hn, Hr. reflexivity.
Qed.

Lemma initial_rescan_fault_fails_witness :
  reconcile (sample_params Absent None None)
    (sample_world [sample_datastore] [] [] []
       (fun c => match c with
                 | RescanAllHba "esx1" => Some "Host is not responding"
                 | _ => None
                 end)) =
  (sample_world [sample_datastore] [] [] []
     (fun c => match c with
               | RescanAllHba "esx1" => Some "Host is not responding"
               | _ => None
               end),
   [RescanAllHba "esx1"], Exited (FailJson "Host is not responding")).
Proof.
  refine (initial_rescan_fault_fails (sample_params Absent None None) _
            {| h_name := "esx1"; h_parent := "Cluster01" |} "Host is not responding" _ _).
  all: reflexivity.
Defined.

(** ** Datastores that are not VMFS, and datastores mounted nowhere *)

(** X3: with [state=present] and an existing datastore that has no VMFS
    information (e.g. an NFS datastore), reading its extents raises the
    attribute error that names the class of the datastore's [info]; the
    module reports the mount error with that message and issues no call
    after the rescan. *)
Theorem present_non_vmfs_datastore_fails p w h d :
  p_state p = Present ->
  find_hostsystem_by_name w (p_esxi_hostname p) = Some h ->
  w_raises w (RescanAllHba (p_esxi_hostname p)) = None ->
  find_datastore_by_name w (p_datastore_name p) = Some d ->
  ds_vmfs d = None ->
  reconcile p w =
    (w, [RescanAllHba (p_esxi_hostname p)],
     Exited (FailJson (("Cannot mount datastore " ++ p_datastore_name p ++ " on host "
                        ++ p_esxi_hostname p) ++ " : "
                       ++ "'" ++ ds_info_class d ++ "' object has no attribute 'vmfs'"))).
Proof.
  intros Hst Hh Hr Hd Hv. pose proof (find_hostsystem_by_name_name _ _ _ Hh) as Hn.
  unfold_module. rewrite Hh. cbn. rewrite Hn, Hr. cbn. rewrite Hst. cbn. rewrite Hd. cbn.
  rewrite Hv. reflexivity.
Qed.

Lemma present_non_vmfs_datastore_fails_witness :
  trace_of (reconcile (sample_params Present (Some sample_device) None)
              (sample_world [nfs_datastore] [] [] [] no_fault)) = [RescanAllHba "esx1"].
Proof.
  rewrite (present_non_vmfs_datastore_fails (sample_params Present (Some sample_device) None)
             (sample_world [nfs_datastore] [] [] [] no_fault)
             {| h_name := "esx1"; h_parent := "Cluster01" |} nfs_datastore).
  all: reflexivity.
Defined.

(** X4: with [state=absent] and an existing datastore without VMFS
    information that is mounted on some host, the UUID lookup of the first
    unmount raises the attribute error that names the class of the
    datastore's [info]; the module reports the unmount error with that
    message and issues no unmount and no removal. *)
Theorem absent_non_vmfs_datastore_fails p w h d host rest :
  p_state p = Absent ->
  find_hostsystem_by_name w (p_esxi_hostname p) = Some h ->
  w_raises w (RescanAllHba (p_esxi_hostname p)) = None ->
  find_datastore_by_name w (p_datastore_name p) = Some d ->
  ds_vmfs d = None ->
  ds_host d = host :: rest ->
  reconcile p w =
    (w, [RescanAllHba (p_esxi_hostname p)],
     Exited (FailJson (("Cannot umount datastore " ++ p_datastore_name p ++ " from host "
                        ++ p_esxi_hostname p) ++ ": "
                       ++ "'" ++ ds_info_class d ++ "' object has no attribute 'vmfs'"))).
Proof.
  intros Hst Hh Hr Hd Hv Hl. pose proof (find_hostsystem_by_name_name _ _ _ Hh) as Hn.
  unfold_module. rewrite Hh. cbn. rewrite Hn, Hr. cbn. rewrite Hst. cbn. rewrite Hd. cbn.
  rewrite Hl, for_each_cons. cbn. rewrite Hv. reflexivity.
Qed.

Lemma absent_non_vmfs_datastore_fails_witness :
  trace_of (reconcile (sample_params Absent None None)
              (sample_world [nfs_datastore] [] [] [] no_fault)) = [RescanAllHba "esx1"].
Proof.
  rewrite (absent_non_vmfs_datastore_fails (sample_params Absent None None)
             (sample_world [nfs_datastore] [] [] [] no_fault)
             {| h_name := "esx1"; h_parent := "Cluster01" |} nfs_datastore "esx1" ["esx2"]).
  all: reflexivity.
Defined.

(** X5: with [state=absent] and an existing datastore mounted on no host,
    the module issues the removal on the target host right after the
    rescan, with no unmount, whether or not the datastore is VMFS. *)
Theorem absent_unmounted_datastore_removed_directly p w h d :
  p_state p = Absent ->
  find_hostsystem_by_name w (p_esxi_hostname p) = Some h ->
  w_raises w (RescanAllHba (p_esxi_hostname p)) = None ->
  find_datastore_by_name w (p_datastore_name p) = Some d ->
  ds_host d = [] ->
  let hn := p_esxi_hostname p in
  let dn := p_datastore_name p in
  trace_of (reconcile p w) = [RescanAllHba hn; RemoveDatastore hn dn] /\
  outcome_of (reconcile p w) =
    match w_raises w (RemoveDatastore hn dn) with
    | None => Exited (ExitJson true (Some ("Datastore " ++ dn ++ " on host " ++ hn)))
    | Some m => Exited (FailJson (("Cannot umount datastore " ++ dn ++ " from host " ++ hn)
                                  ++ ": " ++ m))
    end.
Proof.
  intros Hst Hh Hr Hd Hl hn dn. subst hn dn.
  pose proof (find_hostsystem_by_name_name _ _ _ Hh) as Hn.
  destruct (find_datastore_by_name_in _ _ _ Hd) as [Hname _].
  unfold_module. rewrite Hh. cbn. rewrite Hn, Hr. cbn. rewrite Hst. cbn. rewrite Hd. cbn.
  rewrite Hl, Hname. unfold for_each. cbn.
  destruct (w_raises w (RemoveDatastore (p_esxi_hostname p) (p_datastore_name p)));
    split; reflexivity.
Qed.

Lemma absent_unmounted_datastore_removed_directly_witness :
  trace_of (reconcile (sample_params Absent None None)
              (sample_world [unmounted_datastore] [] [] [] no_fault)) =
    [RescanAllHba "esx1"; RemoveDatastore "esx1" "SAN_DS01"].
Proof.
  refine (proj1 (absent_unmounted_datastore_removed_directly (sample_params Absent None None)
             (sample_world [unmounted_datastore] [] [] [] no_fault)
             {| h_name := "esx1"; h_parent := "Cluster01" |} unmounted_datastore _ _ _ _ _)).
  all: reflexivity.
Defined.

(** ** The create path *)

Lemma rescan_other_effect r s s' u :
  rescan_other_hosts_in_cluster r s = (s', Ret u) ->
  st_trace s' = app (st_trace s)
    (sibling_rescans (esxi_hostname r) (get_all_hosts_by_cluster (st_world s) (h_parent (esxi r)))) /\
  st_world s' = st_world s.
Proof.
  unfold rescan_other_hosts_in_cluster, bind, get_world. cbn.
  destruct u. intros H. now apply rescan_loop_trace in H.
Qed.

(** X6: on the create path, when the create call raises, the module reports
    the mount error with the fault message; it issues no call after the
    create (no move into a datastore cluster, no rescan of other hosts) and
    the inventory is unchanged. *)
Theorem create_fault_reported p w h opt0 rest m :
  p_state p = Present ->
  find_hostsystem_by_name w (p_esxi_hostname p) = Some h ->
  w_raises w (RescanAllHba (p_esxi_hostname p)) = None ->
  find_datastore_by_name w (p_datastore_name p) = None ->
  let hn := p_esxi_hostname p in
  let dn := p_datastore_name p in
  let path := "/vmfs/devices/disks/naa." ++ py_str_opt (normalize_device (p_volume_device_name p)) in
  let spec := {| cs_volumeName := dn; cs_diskName := cs_diskName opt0 |} in
  w_raises w (QueryVmfsDatastoreCreateOptions hn path) = None ->
  w_create_options w path = opt0 :: rest ->
  w_raises w (CreateVmfsDatastore hn spec) = Some m ->
  reconcile p w =
    (w, [RescanAllHba hn; QueryVmfsDatastoreCreateOptions hn path; CreateVmfsDatastore hn spec],
     Exited (FailJson (("Cannot mount datastore " ++ dn ++ " on host " ++ hn) ++ " : " ++ m))).
Proof.
  intros Hst Hh Hr Hd hn dn path spec Hq Ho Hc. subst hn dn path spec.
  pose proof (find_hostsystem_by_name_name _ _ _ Hh) as Hn.
  unfold_module. rewrite Hh. cbn. rewrite Hn, Hr. cbn. rewrite Hst. cbn. rewrite Hd. cbn.
  rewrite Hq. cbn. rewrite Ho. cbn. rewrite Hc. reflexivity.
Qed.

Lemma create_fault_reported_witness :
  outcome_of (reconcile (sample_params Present (Some sample_device) None)
                (sample_world [] [] [sample_create_spec] []
                   (fun c => match c with
                             | CreateVmfsDatastore _ _ => Some "A specified parameter was not correct"
                             | _ => None
                             end))) =
  Exited (FailJson "Cannot mount datastore SAN_DS01 on host esx1 : A specified parameter was not correct").
Proof.
  rewrite (create_fault_reported (sample_params Present (Some sample_device) None)
             (sample_world [] [] [sample_create_spec] []
                (fun c => match c with
                          | CreateVmfsDatastore _ _ => Some "A specified parameter was not correct"
                          | _ => None
                          end))
             {| h_name := "esx1"; h_parent := "Cluster01" |} sample_create_spec []
             "A specified parameter was not correct").
  all: reflexivity.
Defined.

(** X7: on the create path with no datastore cluster named, when every call
    succeeds, the module issues exactly the rescan, the create-options query,
    one create, then an HBA and a VMFS rescan for each other member of the
    target host's parent cluster in cluster order (none for a host outside
    any known cluster); the inventory afterwards is the one the create
    leaves, and the run reports [changed=true]. *)
Theorem create_without_cluster_calls p w h opt0 rest :
  p_state p = Present ->
  find_hostsystem_by_name w (p_esxi_hostname p) = Some h ->
  find_datastore_by_name w (p_datastore_name p) = None ->
  truthy (p_datastore_cluster_name p) = false ->
  (forall c, w_raises w c = None) ->
  let hn := p_esxi_hostname p in
  let dn := p_datastore_name p in
  let path := "/vmfs/devices/disks/naa." ++ py_str_opt (normalize_device (p_volume_device_name p)) in
  let spec := {| cs_volumeName := dn; cs_diskName := cs_diskName opt0 |} in
  w_create_options w path = opt0 :: rest ->
  reconcile p w =
    (apply_call w (CreateVmfsDatastore hn spec),
     app [RescanAllHba hn; QueryVmfsDatastoreCreateOptions hn path; CreateVmfsDatastore hn spec]
       (sibling_rescans hn (get_all_hosts_by_cluster w (h_parent h))),
     Exited (ExitJson true (Some ("Datastore " ++ dn ++ " on host " ++ hn)))).
Proof.
  intros Hst Hh Hd Ht Hok hn dn path spec Ho. subst hn dn path spec.
  pose proof (find_hostsystem_by_name_name _ _ _ Hh) as Hn.
  unfold_module. rewrite Hh. cbn. rewrite Hn, Hok. cbn. rewrite Hst. cbn. rewrite Hd. cbn.
  rewrite Hok. cbn. rewrite Ho. cbn. rewrite Hok. cbn.
  destruct (p_datastore_cluster_name p) as [cl|] eqn:Ecl; cbn in Ht |- *;
    [rewrite Ht; cbn|].
  all: match goal with
       | |- context [rescan_other_hosts_in_cluster ?r ?s] =>
           destruct (rescan_other_ok r s) as [s' Es];
           [intros host; cbn; rewrite ?raises_apply_call, !Hok; split; reflexivity|];
           pose proof (rescan_other_effect _ _ _ _ Es) as [Et Ew]; rewrite Es
       end.
  all: cbn [st_world st_trace esxi h_parent esxi_hostname] in Et, Ew |- *.
  all: rewrite Et, Ew; reflexivity.
Qed.

Lemma create_without_cluster_calls_witness :
  trace_of (reconcile (sample_params Present (Some sample_device) None)
              (sample_world [] [] [sample_create_spec] [] no_fault)) =
    [RescanAllHba "esx1";
     QueryVmfsDatastoreCreateOptions "esx1" ("/vmfs/devices/disks/naa." ++ sample_device);
     CreateVmfsDatastore "esx1"
       {| cs_volumeName := "SAN_DS01"; cs_diskName := "naa." ++ sample_device |};
     RescanAllHba "esx2"; RescanVmfs "esx2"].
Proof.
  rewrite (create_without_cluster_calls (sample_params Present (Some sample_device) None)
             (sample_world [] [] [sample_create_spec] [] no_fault)
             {| h_name := "esx1"; h_parent := "Cluster01" |} sample_create_spec []).
  all: try reflexivity.
  all: intros c; reflexivity.
Defined.

Lemma find_map_same {A} (p : A -> bool) (g : A -> A) l :
  (forall x, p (g x) = p x) -> find p (map g l) = option_map g (find p l).
Proof.
  intros Hg. induction l as [|x xs IH]; [reflexivity|]. cbn. rewrite Hg.
  destruct (p x); [reflexivity | exact IH].
Qed.

Lemma filter_map_same {A} (p : A -> bool) (g : A -> A) l :
  (forall x, p (g x) = p x) -> filter p (map g l) = map g (filter p l).
Proof.
  intros Hg. induction l as [|x xs IH]; [reflexivity|]. cbn. rewrite Hg.
  destruct (p x); cbn; now rewrite IH.
Qed.

Lemma add_child_moid a b f : f_moid (add_child a b f) = f_moid f.
Proof. unfold add_child. now destruct (String.eqb (f_moid f) a). Qed.

Lemma add_child_name a b f : f_name (add_child a b f) = f_name f.
Proof. unfold add_child. now destruct (String.eqb (f_moid f) a). Qed.

Lemma add_child_pod a b f : f_pod (add_child a b f) = f_pod f.
Proof. unfold add_child. now destruct (String.eqb (f_moid f) a). Qed.

Lemma set_parent_moid m q d : ds_moid (set_parent m q d) = ds_moid d.
Proof. unfold set_parent. now destruct (String.eqb (ds_moid d) m). Qed.

Section CreateThenMove.
Variables (w : World) (host : string) (spec : CreateSpec).
Let m := w_new_moid w (cs_volumeName spec).
Let w1 := apply_call w (CreateVmfsDatastore host spec).
Hypothesis Hfresh : find_datastore_by_moid w m = None.

Lemma find_datastore_by_moid_after_create x :
  find_datastore_by_moid w1 x =
    match find_datastore_by_moid w x with
    | Some d => Some d
    | None => if String.eqb m x then Some (new_datastore m host spec) else None
    end.
Proof.
  unfold find_datastore_by_moid. subst w1. cbn. fold m.
  induction (w_datastores w) as [|d ds IH]; [reflexivity|]. cbn.
  destruct (String.eqb (ds_moid d) x); [reflexivity | exact IH].
Qed.

Lemma find_folder_by_moid_after_create x :
  find_folder_by_moid w1 x =
    option_map (add_child (w_datastore_folder w host) m) (find_folder_by_moid w x).
Proof.
  unfold find_folder_by_moid. subst w1. cbn. fold m.
  apply find_map_same. intros f. now rewrite add_child_moid.
Qed.

Lemma has_name_after_create n x : x <> m -> has_name w1 n x = has_name w n x.
Proof.
  intros Hx. unfold has_name, entity_name.
  rewrite find_datastore_by_moid_after_create, find_folder_by_moid_after_create.
  destruct (find_datastore_by_moid w x); [reflexivity|].
  apply String.eqb_neq in Hx. rewrite String.eqb_sym, Hx.
  destruct (find_folder_by_moid w x) as [f|]; [|reflexivity]. cbn.
  now rewrite add_child_name.
Qed.

Lemma has_name_new_after_create : has_name w1 (cs_volumeName spec) m = true.
Proof.
  unfold has_name, entity_name. rewrite find_datastore_by_moid_after_create, Hfresh.
  rewrite String.eqb_refl. cbn. apply String.eqb_refl.
Qed.

End CreateThenMove.

(** X8: on the create path with a datastore cluster [cl] named, when every
    call succeeds, the first folder named [datastore] of the inventory is
    the datastore folder of the target host's datacenter (the one the new
    datastore lands in), the new datastore's reference is fresh and none
    of that folder's children is named like it, and [cl] names a child
    folder [t] of it, the module issues the rescan, the create-options
    query, one create, the move of the new datastore into [t], then the
    rescans of the other members of the target host's parent cluster; it
    reports [changed=true] with a message naming the datastore cluster
    and ending in the task result ["None"].  Afterwards the new datastore
    is a child of [t] and has [t] as its parent. *)
Theorem create_with_cluster_calls p w h opt0 rest cl f fs t ts pod :
  p_state p = Present ->
  find_hostsystem_by_name w (p_esxi_hostname p) = Some h ->
  find_datastore_by_name w (p_datastore_name p) = None ->
  p_datastore_cluster_name p = Some cl ->
  cl <> "" ->
  (forall c, w_raises w c = None) ->
  let hn := p_esxi_hostname p in
  let dn := p_datastore_name p in
  let m := w_new_moid w dn in
  let path := "/vmfs/devices/disks/naa." ++ py_str_opt (normalize_device (p_volume_device_name p)) in
  let spec := {| cs_volumeName := dn; cs_diskName := cs_diskName opt0 |} in
  w_create_options w path = opt0 :: rest ->
  filter (fun f => String.eqb (f_name f) "datastore") (w_folders w) = f :: fs ->
  f_moid f = w_datastore_folder w hn ->
  find_datastore_by_moid w m = None ->
  ~ In m (f_childEntity f) ->
  filter (has_name w dn) (f_childEntity f) = [] ->
  filter (has_name w cl) (f_childEntity f) = t :: ts ->
  find_datastore_by_moid w t = None ->
  find_folder_by_moid w t = Some pod ->
  let w2 := apply_call (apply_call w (CreateVmfsDatastore hn spec)) (MoveIntoFolder t m) in
  reconcile p w =
    (w2,
     app [RescanAllHba hn; QueryVmfsDatastoreCreateOptions hn path; CreateVmfsDatastore hn spec;
          MoveIntoFolder t m]
       (sibling_rescans hn (get_all_hosts_by_cluster w (h_parent h))),
     Exited (ExitJson true (Some ("Datastore " ++ dn ++ " of cluster " ++ cl ++ " on host "
                                  ++ hn ++ " : " ++ "None")))) /\
  (exists d, find_datastore_by_moid w2 m = Some d /\ ds_name d = dn /\
     ds_parent d = (if f_pod pod then StoragePod (f_name pod) else OtherFolder (f_name pod))) /\
  (exists g, find_folder_by_moid w2 t = Some g /\ In m (f_childEntity g)).
Proof.
  intros Hst Hh Hd Hcl Hne Hok hn dn m path spec Ho Hf HF Hfresh Hnotin Hsrc Htgt Htd Hpod w2.
  pose proof (find_hostsystem_by_name_name _ _ _ Hh) as Hn.
  set (w1 := apply_call w (CreateVmfsDatastore hn spec)).
  assert (Hm : w_new_moid w (cs_volumeName spec) = m) by reflexivity.
  (* the lookups of the move, in [w1] *)
  set (f1 := add_child (w_datastore_folder w hn) m f).
  assert (Hc1 : f_childEntity f1 = app (f_childEntity f) [m])
    by (subst f1; unfold add_child; now rewrite HF, String.eqb_refl).
  assert (Hf1 : filter (fun f => String.eqb (f_name f) "datastore") (w_folders w1) =
                f1 :: map (add_child (w_datastore_folder w hn) m) fs).
  { subst w1. cbn. rewrite filter_map_same.
    - now rewrite Hf.
    - intros g. now rewrite add_child_name. }
  assert (Hchild : forall x, In x (f_childEntity f) -> x <> m)
    by (intros x Hx E; subst x; contradiction).
  assert (Hs1 : filter (has_name w1 dn) (f_childEntity f1) = [m]).
  { rewrite Hc1, filter_app.
    rewrite (filter_ext_in (has_name w1 dn) (has_name w dn));
      [|intros x Hx; apply (has_name_after_create w hn spec); rewrite Hm; now apply Hchild].
    assert (Hnew : has_name w1 dn m = true)
      by (apply (has_name_new_after_create w hn spec); rewrite Hm; exact Hfresh).
    rewrite Hsrc. cbn [filter app]. now rewrite Hnew. }
  assert (Ht1 : exists ts1, filter (has_name w1 cl) (f_childEntity f1) = t :: ts1).
  { rewrite Hc1, filter_app.
    rewrite (filter_ext_in (has_name w1 cl) (has_name w cl));
      [|intros x Hx; apply (has_name_after_create w hn spec); rewrite Hm; now apply Hchild].
    rewrite Htgt. eexists. reflexivity. }
  destruct Ht1 as [ts1 Ht1].
  assert (Htin : In t (f_childEntity f)).
  { assert (H : In t (filter (has_name w cl) (f_childEntity f))) by (rewrite Htgt; now left).
    now apply filter_In in H as [H _]. }
  assert (Htd1 : find_datastore_by_moid w1 t = None).
  { subst w1. rewrite (find_datastore_by_moid_after_create w hn spec), Htd, Hm.
    destruct (String.eqb m t) eqn:E; [|reflexivity].
    apply String.eqb_eq in E. exfalso. exact (Hchild t Htin (eq_sym E)). }
  assert (Hmv : w_raises w1 (MoveIntoFolder t m) = None)
    by (subst w1; rewrite raises_apply_call; apply Hok).
  split.
  - subst hn dn path spec m w2.
    unfold_module. rewrite Hh. cbn. rewrite Hn, Hok. cbn. rewrite Hst. cbn. rewrite Hd. cbn.
    rewrite Hok. cbn. rewrite Ho. cbn. rewrite Hok. cbn. rewrite Hcl.
    apply String.eqb_neq in Hne. cbn. rewrite Hne. cbn.
    match goal with
    | |- context [move_into_datastore_cluster ?r ?c ?s] =>
        rewrite (move_ok r c s f1 _ _ [] t ts1 Hf1 Hs1 Ht1 Htd1 Hmv)
    end.
    cbn [st_world st_trace].
    match goal with
    | |- context [rescan_other_hosts_in_cluster ?r ?s] =>
        destruct (rescan_other_ok r s) as [s' Es];
        [intros host; cbn [st_world]; rewrite !raises_apply_call; split; apply Hok|];
        pose proof (rescan_other_effect _ _ _ _ Es) as [Et Ew]; rewrite Es
    end.
    cbn [st_world st_trace esxi h_parent esxi_hostname] in Et, Ew |- *.
    rewrite Et, Ew. unfold w1. cbn [app]. unfold get_all_hosts_by_cluster.
    rewrite !clusters_apply_call. reflexivity.
  - assert (Hpod1 : find_folder_by_moid w1 t =
                    Some (add_child (w_datastore_folder w hn) m pod))
      by (subst w1; rewrite (find_folder_by_moid_after_create w hn spec), Hpod; reflexivity).
    assert (Hnew1 : find_datastore_by_moid w1 m = Some (new_datastore m hn spec)).
    { subst w1. rewrite (find_datastore_by_moid_after_create w hn spec), Hm, Hfresh.
      now rewrite String.eqb_refl. }
    assert (Et : f_moid pod = t).
    { unfold find_folder_by_moid in Hpod. apply find_some in Hpod as [_ E].
      now apply String.eqb_eq in E. }
    assert (Hw2 : w2 = apply_call w1 (MoveIntoFolder t m)) by reflexivity.
    clearbody w2 w1. subst w2. cbn [apply_call]. rewrite Hpod1. cbv beta iota zeta.
    rewrite add_child_pod, add_child_name. split.
    + exists (set_parent m (if f_pod pod then StoragePod (f_name pod) else OtherFolder (f_name pod))
                (new_datastore m hn spec)).
      split.
      * unfold find_datastore_by_moid. cbn [set_folders set_datastores w_datastores].
        rewrite find_map_same; [|intros d; now rewrite set_parent_moid].
        fold (find_datastore_by_moid w1 m). now rewrite Hnew1.
      * unfold set_parent, new_datastore. cbn [ds_moid]. rewrite String.eqb_refl.
        split; reflexivity.
    + exists (add_child t m (drop_child m (add_child (w_datastore_folder w hn) m pod))).
      split.
      * unfold find_folder_by_moid. cbn [set_folders set_datastores w_folders].
        rewrite find_map_same; [|intros g; now rewrite add_child_moid].
        rewrite find_map_same; [|reflexivity].
        fold (find_folder_by_moid w1 t). now rewrite Hpod1.
      * unfold add_child at 1. cbn [drop_child f_moid].
        rewrite add_child_moid, Et, String.eqb_refl. cbn [f_childEntity].
        apply in_or_app. right. now left.
Qed.

Lemma create_with_cluster_calls_witness :
  outcome_of (reconcile (sample_params Present (Some sample_device) (Some "POD01"))
                (sample_world [] sample_folders [sample_create_spec] [] no_fault)) =
    Exited (ExitJson true (Some "Datastore SAN_DS01 of cluster POD01 on host esx1 : None")) /\
  find_datastore_by_moid
    (world_after (reconcile (sample_params Present (Some sample_device) (Some "POD01"))
                    (sample_world [] sample_folders [sample_create_spec] [] no_fault)))
    "datastore-101" <> None.
Proof.
  destruct (create_with_cluster_calls (sample_params Present (Some sample_device) (Some "POD01"))
             (sample_world [] sample_folders [sample_create_spec] [] no_fault)
             {| h_name := "esx1"; h_parent := "Cluster01" |} sample_create_spec []
             "POD01"
             {| f_moid := "group-s5"; f_name := "datastore"; f_pod := false;
                f_childEntity := ["group-p1"] |} [] "group-p1" []
             {| f_moid := "group-p1"; f_name := "POD01"; f_pod := true; f_childEntity := [] |})
    as [E [[d [Hd _]] _]].
  all: try reflexivity.
  - discriminate.
  - cbn. intros [H|[]]. discriminate H.
  - unfold outcome_of, world_after. rewrite E. cbn [fst snd]. split; [reflexivity|].
    intros H. assert (C : Some d = None) by (rewrite <- H; exact (eq_sym Hd)).
    discriminate C.
Defined.

(** ** Which calls each state issues *)

Section AppendsOnly.
Variable P : call -> bool.

Definition appends_only {A} (m : M A) : Prop :=
  forall s s' x, m s = (s', x) ->
    exists ext, st_trace s' = app (st_trace s) ext /\ Forall (fun c => P c = true) ext.

Lemma ao_ret {A} (a : A) : appends_only (ret a).
Proof. intros s s' x H. injection H as <- _. exists []. now rewrite app_nil_r. Qed.

Lemma ao_raise {A} msg : appends_only (A := A) (raise msg).
Proof. intros s s' x H. injection H as <- _. exists []. now rewrite app_nil_r. Qed.

Lemma ao_exit_json {A} b r : appends_only (A := A) (exit_json b r).
Proof. intros s s' x H. injection H as <- _. exists []. now rewrite app_nil_r. Qed.

Lemma ao_fail_json {A} msg : appends_only (A := A) (fail_json msg).
Proof. intros s s' x H. injection H as <- _. exists []. now rewrite app_nil_r. Qed.

Lemma ao_get_world : appends_only get_world.
Proof. intros s s' x H. injection H as <- _. exists []. now rewrite app_nil_r. Qed.

Lemma ao_py_index0 {A} (l : list A) : appends_only (py_index0 l).
Proof. destruct l; [apply ao_raise | apply ao_ret]. Qed.

Lemma ao_info_vmfs d : appends_only (info_vmfs d).
Proof. unfold info_vmfs. destruct (ds_vmfs d); [apply ao_ret | apply ao_raise]. Qed.

Lemma ao_remote c : P c = true -> appends_only (remote c).
Proof.
  intros Hc s s' x H. unfold remote in H.
  destruct (w_raises _ c); injection H as <- _; exists [c]; cbn; auto.
Qed.

Lemma ao_bind {A B} (m : M A) (k : A -> M B) :
  appends_only m -> (forall a, appends_only (k a)) -> appends_only (bind m k).
Proof.
  intros Hm Hk s s' x H. unfold bind in H.
  destruct (m s) as [s1 [a|e|r1]] eqn:E; destruct (Hm _ _ _ E) as [e1 [Et1 F1]].
  - destruct (Hk a _ _ _ H) as [e2 [Et2 F2]].
    exists (app e1 e2). rewrite Et2, Et1, app_assoc. split; [reflexivity|].
    now apply Forall_app.
  - injection H as <- _. now exists e1.
  - injection H as <- _. now exists e1.
Qed.

Lemma ao_try_except {A} (m : M A) h :
  appends_only m -> (forall e, appends_only (h e)) -> appends_only (try_except m h).
Proof.
  intros Hm Hh s s' x H. unfold try_except in H.
  destruct (m s) as [s1 [a|e|r1]] eqn:E; destruct (Hm _ _ _ E) as [e1 [Et1 F1]].
  - injection H as <- _. now exists e1.
  - destruct (Hh e _ _ _ H) as [e2 [Et2 F2]].
    exists (app e1 e2). rewrite Et2, Et1, app_assoc. split; [reflexivity|].
    now apply Forall_app.
  - injection H as <- _. now exists e1.
Qed.

Lemma ao_for_each {A} (l : list A) body :
  (forall x, appends_only (body x)) -> appends_only (for_each l body).
Proof.
  intros Hb. induction l as [|x xs IH].
  - apply ao_ret.
  - unfold for_each; fold (@for_each A). apply ao_bind; [apply Hb | intros _; exact IH].
Qed.
End AppendsOnly.

Ltac solve_appends :=
  repeat first
    [ apply ao_bind; [|intros ?]
    | apply ao_try_except; [|intros ?]
    | apply ao_for_each; intros ?
    | apply ao_ret | apply ao_raise | apply ao_exit_json | apply ao_fail_json
    | apply ao_get_world | apply ao_py_index0 | apply ao_info_vmfs
    | apply ao_remote; reflexivity
    | match goal with
      | |- appends_only _ (match ?x with _ => _ end) => destruct x
      | |- appends_only _ (if ?b then _ else _) => destruct b
      end ].

Lemma ao_mount r ds :
  appends_only (fun c => negb (is_unmount_or_remove c)) (mount_san_datastore_host r ds).
Proof.
  unfold mount_san_datastore_host, query_create_options, query_expand_options,
    move_into_datastore_cluster, rescan_other_hosts_in_cluster.
  solve_appends.
Qed.

Lemma ao_umount r ds : appends_only is_absent_call (umount_san_datastore_host r ds).
Proof. unfold umount_san_datastore_host. solve_appends. Qed.

Lemma ao_process_state (P : call -> bool) r :
  (forall n, P (RescanAllHba n) = true) ->
  (forall ds, appends_only P (match state r with
                              | Present => mount_san_datastore_host r ds
                              | Absent => umount_san_datastore_host r ds
                              end)) ->
  appends_only P (process_state r).
Proof.
  intros HR Hm. unfold process_state, check_datastore_host_state.
  apply ao_try_except; [|intros; apply ao_fail_json].
  apply ao_bind; [|exact Hm].
  apply ao_bind; [apply ao_remote, HR|intros _].
  apply ao_bind; [apply ao_get_world|intros; apply ao_ret].
Qed.

Lemma ao_main_san (P : call -> bool) p :
  (forall n, P (RescanAllHba n) = true) ->
  (forall r ds, state r = p_state p ->
     appends_only P (match state r with
                     | Present => mount_san_datastore_host r ds
                     | Absent => umount_san_datastore_host r ds
                     end)) ->
  appends_only P (main_san p).
Proof.
  intros HR Hm s s' x H.
  change (main_san p s) with
    (match init p s with
     | (s1, Ret r) => process_state r s1
     | (s1, Raise e) => (s1, Raise e)
     | (s1, Exited r) => (s1, Exited r)
     end) in H.
  unfold init, bind, get_world in H. cbv beta iota in H.
  destruct (find_hostsystem_by_name (st_world s) (p_esxi_hostname p)) as [h|].
  - revert H. apply ao_process_state; [exact HR|]. intros ds. apply Hm. reflexivity.
  - unfold fail_json in H. injection H as <- _. exists []. now rewrite app_nil_r.
Qed.

Lemma ao_reconcile (P : call -> bool) p w :
  appends_only P (main_san p) -> Forall (fun c => P c = true) (trace_of (reconcile p w)).
Proof.
  intros H. unfold trace_of, reconcile.
  destruct (main_san p {| st_world := w; st_trace := [] |}) as [s o] eqn:E.
  destruct (H _ _ _ E) as [ext [Et F]]. cbn in Et |- *. now rewrite Et.
Qed.

(** X9: a run with [state=present] never unmounts or removes a datastore. *)
Theorem present_never_unmounts_or_removes p w :
  p_state p = Present ->
  Forall (fun c => is_unmount_or_remove c = false) (trace_of (reconcile p w)).
Proof.
  intros Hst.
  assert (F : Forall (fun c => negb (is_unmount_or_remove c) = true) (trace_of (reconcile p w))).
  { apply ao_reconcile, ao_main_san; [reflexivity|].
    intros r ds Hr. rewrite Hr, Hst. apply ao_mount. }
  eapply Forall_impl; [|exact F]. intros c Hc. now apply negb_true_iff.
Qed.

Lemma present_never_unmounts_or_removes_witness :
  Forall (fun c => is_unmount_or_remove c = false)
    (trace_of (reconcile (sample_params Present (Some sample_device) None)
                 (sample_world [sample_datastore] [] [] [] no_fault))).
Proof.
  apply present_never_unmounts_or_removes. reflexivity.
Defined.

(** X10: a run with [state=absent] issues only HBA rescans, unmounts and
    removals: no query, create, expand, move or VMFS rescan. *)
Theorem absent_issues_only_rescan_unmount_remove p w :
  p_state p = Absent ->
  Forall (fun c => is_absent_call c = true) (trace_of (reconcile p w)).
Proof.
  intros Hst. apply ao_reconcile, ao_main_san; [reflexivity|].
  intros r ds Hr. rewrite Hr, Hst. apply ao_umount.
Qed.

Lemma absent_issues_only_rescan_unmount_remove_witness :
  Forall (fun c => is_absent_call c = true)
    (trace_of (reconcile (sample_params Absent None None)
                 (sample_world [sample_datastore] [] [] [] no_fault))).
Proof.
  apply absent_issues_only_rescan_unmount_remove. reflexivity.
Defined.

(** ** Quantities a run leaves as they are *)

Section Keeps.
Context {T : Type} (f : World -> T).

Definition keeps {A} (m : M A) : Prop :=
  forall s s' x, m s = (s', x) -> f (st_world s') = f (st_world s).

Lemma keeps_ret {A} (a : A) : keeps (ret a).
Proof. intros s s' x H. now injection H as <- _. Qed.

Lemma keeps_raise {A} msg : keeps (A := A) (raise msg).
Proof. intros s s' x H. now injection H as <- _. Qed.

Lemma keeps_exit_json {A} b r : keeps (A := A) (exit_json b r).
Proof. intros s s' x H. now injection H as <- _. Qed.

Lemma keeps_fail_json {A} msg : keeps (A := A) (fail_json msg).
Proof. intros s s' x H. now injection H as <- _. Qed.

Lemma keeps_get_world : keeps get_world.
Proof. intros s s' x H. now injection H as <- _. Qed.

Lemma keeps_py_index0 {A} (l : list A) : keeps (py_index0 l).
Proof. destruct l; [apply keeps_raise | apply keeps_ret]. Qed.

Lemma keeps_info_vmfs d : keeps (info_vmfs d).
Proof. unfold info_vmfs. destruct (ds_vmfs d); [apply keeps_ret | apply keeps_raise]. Qed.

Lemma keeps_remote c : (forall w, f (apply_call w c) = f w) -> keeps (remote c).
Proof.
  intros Hc s s' x H. unfold remote in H.
  destruct (w_raises _ c); injection H as <- _; cbn; auto.
Qed.

Lemma keeps_bind {A B} (m : M A) (k : A -> M B) :
  keeps m -> (forall a, keeps (k a)) -> keeps (bind m k).
Proof.
  intros Hm Hk s s' x H. unfold bind in H.
  destruct (m s) as [s1 [a|e|r1]] eqn:E; pose proof (Hm _ _ _ E) as H1.
  - rewrite (Hk a _ _ _ H). exact H1.
  - now injection H as <- _.
  - now injection H as <- _.
Qed.

Lemma keeps_try_except {A} (m : M A) h :
  keeps m -> (forall e, keeps (h e)) -> keeps (try_except m h).
Proof.
  intros Hm Hh s s' x H. unfold try_except in H.
  destruct (m s) as [s1 [a|e|r1]] eqn:E; pose proof (Hm _ _ _ E) as H1.
  - now injection H as <- _.
  - rewrite (Hh e _ _ _ H). exact H1.
  - now injection H as <- _.
Qed.

Lemma keeps_for_each {A} (l : list A) body :
  (forall x, keeps (body x)) -> keeps (for_each l body).
Proof.
  intros Hb. induction l as [|x xs IH].
  - apply keeps_ret.
  - change (keeps (bind (body x) (fun _ => for_each xs body))).
    apply keeps_bind; [apply Hb | intros _; exact IH].
Qed.

End Keeps.

(** The hosts and the faults: no call changes them. *)
Definition hosts_raises (w : World) : list HostSystem * (call -> option string) :=
  (w_hosts w, w_raises w).

Lemma hosts_raises_apply_call w c : hosts_raises (apply_call w c) = hosts_raises w.
Proof. unfold hosts_raises. now rewrite hosts_apply_call, raises_apply_call. Qed.

Lemma keeps_hosts_raises_main_san p : keeps hosts_raises (main_san p).
Proof.
  unfold main_san, init, process_state, check_datastore_host_state,
    mount_san_datastore_host, umount_san_datastore_host, query_create_options,
    query_expand_options, move_into_datastore_cluster, rescan_other_hosts_in_cluster.
  repeat first
    [ progress cbv zeta
    | apply keeps_bind; [|intros ?]
    | apply keeps_try_except; [|intros ?]
    | apply keeps_for_each; intros ?
    | apply keeps_ret | apply keeps_raise | apply keeps_exit_json | apply keeps_fail_json
    | apply keeps_get_world | apply keeps_py_index0 | apply keeps_info_vmfs
    | apply keeps_remote; intros ?; apply hosts_raises_apply_call
    | match goal with
      | |- keeps _ (match ?x with _ => _ end) => destruct x
      | |- keeps _ (if ?b then _ else _) => destruct b
      end ].
Qed.

Lemma hosts_raises_after_run p w :
  w_hosts (world_after (reconcile p w)) = w_hosts w /\
  w_raises (world_after (reconcile p w)) = w_raises w.
Proof.
  unfold world_after, reconcile.
  destruct (main_san p {| st_world := w; st_trace := [] |}) as [s o] eqn:E.
  pose proof (keeps_hosts_raises_main_san p _ _ _ E) as H.
  unfold hosts_raises in H. cbn in H. injection H as H1 H2. now split.
Qed.

(** A run that ends in [exit_json] found the target host, and its initial
    rescan did not raise. *)
Lemma exited_run_start p w c r :
  outcome_of (reconcile p w) = Exited (ExitJson c r) ->
  exists h, find_hostsystem_by_name w (p_esxi_hostname p) = Some h /\
            w_raises w (RescanAllHba (p_esxi_hostname p)) = None.
Proof.
  destruct (find_hostsystem_by_name w (p_esxi_hostname p)) as [h|] eqn:Hh;
    [|unfold_module; rewrite Hh; discriminate].
  pose proof (find_hostsystem_by_name_name _ _ _ Hh) as Hn.
  destruct (w_raises w (RescanAllHba (p_esxi_hostname p))) as [m|] eqn:Hr;
    [unfold_module; rewrite Hh; cbn; rewrite Hn, Hr; discriminate|].
  intros _. now exists h.
Qed.

(** The second run, on an inventory with the same hosts and faults. *)
Lemma second_run_start p w w' h :
  w_hosts w' = w_hosts w -> w_raises w' = w_raises w ->
  find_hostsystem_by_name w (p_esxi_hostname p) = Some h ->
  find_hostsystem_by_name w' (p_esxi_hostname p) = Some h.
Proof. intros Hh _ E. unfold find_hostsystem_by_name in *. now rewrite Hh. Qed.

(** *** A removal that succeeded *)

(** The datastores by reference and name. *)
Definition ds_ids (w : World) : list (string * string) :=
  map (fun d => (ds_moid d, ds_name d)) (w_datastores w).

Lemma ds_ids_unmount w h u : ds_ids (apply_call w (UnmountVmfsVolume h u)) = ds_ids w.
Proof.
  unfold ds_ids. cbn. rewrite map_map. apply map_ext. intros d.
  unfold unmount_from. destruct (ds_vmfs d); [destruct (String.eqb _ _)|]; reflexivity.
Qed.

Lemma keeps_ds_ids_unmount_loop d :
  keeps ds_ids (for_each (ds_host d) (fun host =>
                  v <- info_vmfs d ;; remote (UnmountVmfsVolume host (vmfs_uuid v)))).
Proof.
  apply keeps_for_each. intros host. apply keeps_bind; [apply keeps_info_vmfs|].
  intros v. apply keeps_remote. intros w. apply ds_ids_unmount.
Qed.

(** At most one datastore object is named [n]. *)
Definition unique_name (w : World) (n : string) : Prop :=
  forall d1 d2, In d1 (w_datastores w) -> In d2 (w_datastores w) ->
    ds_name d1 = n -> ds_name d2 = n -> ds_moid d1 = ds_moid d2.

Lemma unique_name_ids w w' n : ds_ids w' = ds_ids w -> unique_name w n -> unique_name w' n.
Proof.
  intros E U d1 d2 H1 H2 N1 N2.
  assert (Hid : forall d, In d (w_datastores w') ->
            exists e, In e (w_datastores w) /\ ds_moid e = ds_moid d /\ ds_name e = ds_name d).
  { intros d Hd. assert (Hin : In (ds_moid d, ds_name d) (ds_ids w))
      by (rewrite <- E; unfold ds_ids; apply in_map_iff; now exists d).
    unfold ds_ids in Hin. apply in_map_iff in Hin as [e [He Hine]].
    injection He as He1 He2. now exists e. }
  destruct (Hid d1 H1) as [e1 [He1 [M1 N1']]]. destruct (Hid d2 H2) as [e2 [He2 [M2 N2']]].
  rewrite <- M1, <- M2. apply U; [exact He1 | exact He2 | congruence | congruence].
Qed.

Lemma remove_unique_gone w hn n :
  unique_name w n -> find_datastore_by_name (apply_call w (RemoveDatastore hn n)) n = None.
Proof.
  intros U. cbn [apply_call].
  destruct (find_datastore_by_name w n) as [d|] eqn:Hd; [|exact Hd].
  destruct (find_datastore_by_name_in _ _ _ Hd) as [Hdn Hdin].
  unfold find_datastore_by_name. cbn.
  destruct (find _ _) as [x|] eqn:E; [|reflexivity].
  apply find_some in E as [Hin Hx]. apply filter_In in Hin as [Hin Hm].
  apply String.eqb_eq in Hx.
  rewrite (U x d Hin Hdin Hx Hdn), String.eqb_refl in Hm. discriminate.
Qed.

Ltac fold_unmount_loop d :=
  match goal with
  | |- context [for_each ?l ?b ?s] =>
      replace (for_each l b s) with
        (for_each l (fun host => x <- info_vmfs d ;;
                                 remote (UnmountVmfsVolume host (vmfs_uuid x))) s)
        by reflexivity
  end.

(** The shape of a run with [state=absent] that reports [changed=true]:
    the unmount loop succeeded, then the removal did. *)
Lemma absent_changed_run p w r :
  p_state p = Absent ->
  outcome_of (reconcile p w) = Exited (ExitJson true r) ->
  exists h d s1,
    find_hostsystem_by_name w (p_esxi_hostname p) = Some h /\
    w_raises w (RescanAllHba (p_esxi_hostname p)) = None /\
    find_datastore_by_name w (p_datastore_name p) = Some d /\
    for_each (ds_host d) (fun host =>
      v <- info_vmfs d ;; remote (UnmountVmfsVolume host (vmfs_uuid v)))
      {| st_world := w; st_trace := [RescanAllHba (p_esxi_hostname p)] |} = (s1, Ret tt) /\
    world_after (reconcile p w) =
      apply_call (st_world s1) (RemoveDatastore (p_esxi_hostname p) (ds_name d)).
Proof.
  intros Hst Hout.
  destruct (exited_run_start p w true r Hout) as [h [Hh Hr]].
  pose proof (find_hostsystem_by_name_name _ _ _ Hh) as Hn.
  revert Hout.
  destruct (find_datastore_by_name w (p_datastore_name p)) as [d|] eqn:Hd;
    [|unfold_module; rewrite Hh; cbn; rewrite Hn, Hr; cbn; rewrite Hst; cbn; rewrite Hd;
      discriminate].
  destruct (for_each (ds_host d) (fun host =>
              v <- info_vmfs d ;; remote (UnmountVmfsVolume host (vmfs_uuid v)))
              {| st_world := w; st_trace := [RescanAllHba (p_esxi_hostname p)] |})
    as [s1 [[]|e|e]] eqn:E.
  - destruct (w_raises (st_world s1) (RemoveDatastore (p_esxi_hostname p) (ds_name d))) eqn:Er.
    + unfold_module. rewrite Hh. cbn. rewrite Hn, Hr. cbn. rewrite Hst. cbn. rewrite Hd. cbn.
      fold_unmount_loop d.
      rewrite E. cbn. rewrite Er. discriminate.
    + intros _. exists h, d, s1. repeat split; try assumption.
      unfold world_after.
      unfold_module. rewrite Hh. cbn. rewrite Hn, Hr. cbn. rewrite Hst. cbn. rewrite Hd. cbn.
      fold_unmount_loop d.
      rewrite E. cbn. rewrite Er. reflexivity.
  - unfold_module. rewrite Hh. cbn. rewrite Hn, Hr. cbn. rewrite Hst. cbn. rewrite Hd. cbn.
    fold_unmount_loop d.
    rewrite E. discriminate.
  - exfalso. eapply no_exit_unmount_loop. exact E.
Qed.

(** *** A create that succeeded *)

(** The shape of a create-path run that reports [changed=true]: the
    inventory afterwards is the one the create left, possibly followed by a
    folder move. *)
Lemma apply_call_rescan_all w h : apply_call w (RescanAllHba h) = w.
Proof. reflexivity. Qed.

Lemma apply_call_query_create w h path :
  apply_call w (QueryVmfsDatastoreCreateOptions h path) = w.
Proof. reflexivity. Qed.

Lemma apply_call_query_expand w h ds :
  apply_call w (QueryVmfsDatastoreExpandOptions h ds) = w.
Proof. reflexivity. Qed.

Section CreateChanged.
#[local] Arguments apply_call : simpl never.

Lemma create_changed_run p w h r :
  p_state p = Present ->
  find_hostsystem_by_name w (p_esxi_hostname p) = Some h ->
  find_datastore_by_name w (p_datastore_name p) = None ->
  outcome_of (reconcile p w) = Exited (ExitJson true r) ->
  exists spec, cs_volumeName spec = p_datastore_name p /\
    (world_after (reconcile p w) = apply_call w (CreateVmfsDatastore (p_esxi_hostname p) spec) \/
     exists t e, world_after (reconcile p w) =
       apply_call (apply_call w (CreateVmfsDatastore (p_esxi_hostname p) spec))
                  (MoveIntoFolder t e)).
Proof.
  intros Hst Hh Hd. pose proof (find_hostsystem_by_name_name _ _ _ Hh) as Hn.
  unfold outcome_of, world_after. unfold_module. split_run.
  all: try discriminate.
  all: intros _.
  all: rewrite ?apply_call_rescan_all, ?apply_call_query_create, ?apply_call_query_expand in *.
  all: try congruence.
  all: repeat match goal with
         | E : rescan_other_hosts_in_cluster _ _ = _ |- _ =>
             apply rescan_other_effect in E as [_ ?]
         | E : move_into_datastore_cluster _ _ _ = _ |- _ =>
             apply move_into_datastore_cluster_effect in E as [? [? [_ ?]]]
         end.
  all: match goal with
       | H : Some ?a = Some ?b |- _ => injection H as ?; subst a
       end.
  all: match goal with
       | H : w_raises _ (CreateVmfsDatastore _ ?spec) = None |- _ => exists spec
       end.
  all: split; [reflexivity|].
  all: cbn [fst st_world] in *; rewrite <- Hn.
  all: first
    [ left; congruence
    | right; match goal with
             | H : _ = apply_call _ (MoveIntoFolder ?t ?e) |- _ => exists t, e
             end; congruence ].
Qed.

End CreateChanged.


Lemma find_app {A} (q : A -> bool) l1 l2 :
  find q (app l1 l2) = match find q l1 with Some x => Some x | None => find q l2 end.
Proof.
  induction l1 as [|x xs IH]; [reflexivity|]. cbn. destruct (q x); [reflexivity | exact IH].
Qed.

Lemma set_parent_name m q d : ds_name (set_parent m q d) = ds_name d.
Proof. unfold set_parent. now destruct (String.eqb (ds_moid d) m). Qed.

Lemma set_parent_vmfs m q d : ds_vmfs (set_parent m q d) = ds_vmfs d.
Proof. unfold set_parent. now destruct (String.eqb (ds_moid d) m). Qed.

(** After a create into an inventory without a datastore of that name,
    and after a move, the name finds a VMFS datastore. *)
Lemma find_after_create w hn spec :
  find_datastore_by_name w (cs_volumeName spec) = None ->
  exists d v, find_datastore_by_name (apply_call w (CreateVmfsDatastore hn spec))
                (cs_volumeName spec) = Some d /\
              ds_name d = cs_volumeName spec /\ ds_vmfs d = Some v.
Proof.
  intros Hd. unfold find_datastore_by_name in *. cbn. rewrite find_app, Hd. cbn.
  rewrite String.eqb_refl. eexists _, _. split; [reflexivity | split; reflexivity].
Qed.

Lemma find_after_move w t e n d v :
  find_datastore_by_name w n = Some d -> ds_vmfs d = Some v ->
  exists d', find_datastore_by_name (apply_call w (MoveIntoFolder t e)) n = Some d' /\
             ds_name d' = ds_name d /\ ds_vmfs d' = Some v.
Proof.
  intros Hd Hv. cbn [apply_call].
  destruct (find_folder_by_moid w t) as [tf|]; [|now exists d].
  unfold find_datastore_by_name in *. cbn.
  rewrite find_map_same; [|intros x; now rewrite set_parent_name].
  rewrite Hd. cbn. eexists. split; [reflexivity|].
  now rewrite set_parent_name, set_parent_vmfs.
Qed.

Lemma expand_options_create w hn spec :
  w_expand_options (apply_call w (CreateVmfsDatastore hn spec)) = w_expand_options w.
Proof. reflexivity. Qed.

Lemma expand_options_move w t e :
  w_expand_options (apply_call w (MoveIntoFolder t e)) = w_expand_options w.
Proof. cbn. now destruct (find_folder_by_moid w t). Qed.

(** ** C3 *)

(** C3 (as the code has it): running again with the same parameters on
    the inventory a run left behind reports [changed=false]
    - when the first run reported [changed=false] (it then gives the very
      same result: that run altered nothing);
    - when the first run, with [state=absent], removed the datastore and
      that datastore was the only object of its name;
    - when the first run, with [state=present], created the datastore, and
      the host offers no expand option for it (and the expand query does
      not raise).
    Runs that fail, and runs that expand an existing datastore, are not
    covered. *)
Theorem repeated_run_reports_unchanged p w :
  let x := reconcile p w in
  let w' := world_after x in
  let hn := p_esxi_hostname p in
  let dn := p_datastore_name p in
  (forall r, outcome_of x = Exited (ExitJson false r) -> reconcile p w' = x) /\
  (forall r, p_state p = Absent -> outcome_of x = Exited (ExitJson true r) ->
     unique_name w dn ->
     reconcile p w' = (w', [RescanAllHba hn], Exited (ExitJson false None))) /\
  (forall r, p_state p = Present -> find_datastore_by_name w dn = None ->
     outcome_of x = Exited (ExitJson true r) ->
     w_raises w (QueryVmfsDatastoreExpandOptions hn dn) = None ->
     w_expand_options w dn = [] ->
     outcome_of (reconcile p w') = Exited (ExitJson false None)).
Proof.
  intros x w' hn dn. subst x w' hn dn.
  destruct (hosts_raises_after_run p w) as [Hhosts Hraises].
  split; [|split].
  - intros r H. pose proof (unchanged_run_keeps_world p w) as K. rewrite H in K.
    now rewrite K.
  - intros r Hst Hout U.
    destruct (absent_changed_run p w r Hst Hout) as [h [d [s1 [Hh [Hr [Hd [E Hw']]]]]]].
    destruct (find_datastore_by_name_in _ _ _ Hd) as [Hdn _].
    pose proof (keeps_ds_ids_unmount_loop d _ _ _ E) as Hids. cbn [st_world] in Hids.
    assert (Hgone : find_datastore_by_name (world_after (reconcile p w)) (p_datastore_name p)
                    = None).
    { rewrite Hw', Hdn. apply remove_unique_gone. exact (unique_name_ids _ _ _ Hids U). }
    pose proof (second_run_start p w _ h Hhosts Hraises Hh) as Hh'.
    pose proof (find_hostsystem_by_name_name _ _ _ Hh') as Hn.
    revert Hgone Hh' Hraises. generalize (world_after (reconcile p w)). intros w' Hgone Hh' Hr'.
    unfold_module. rewrite Hh'. cbn. rewrite Hn, Hr', Hr. cbn. rewrite Hst. cbn.
    now rewrite Hgone.
  - intros r Hst Hd Hout Hq Hx.
    destruct (exited_run_start p w true r Hout) as [h [Hh Hr]].
    destruct (create_changed_run p w h r Hst Hh Hd Hout) as [spec [Hsn Hw']].
    destruct (find_after_create w (p_esxi_hostname p) spec) as [d [v [Hd1 [Hdn1 Hv1]]]];
      [now rewrite Hsn|].
    rewrite Hsn in Hd1, Hdn1.
    assert (Hfound : exists d', find_datastore_by_name (world_after (reconcile p w))
                                  (p_datastore_name p) = Some d' /\
                                ds_name d' = p_datastore_name p /\ ds_vmfs d' = Some v /\
                                w_expand_options (world_after (reconcile p w)) =
                                  w_expand_options w).
    { destruct Hw' as [Hw'|[t [e Hw']]]; rewrite Hw'.
      - exists d. rewrite expand_options_create. now repeat split.
      - destruct (find_after_move _ t e _ _ _ Hd1 Hv1) as [d' [Hd' [Hn' Hv']]].
        exists d'. rewrite Hn', expand_options_move, expand_options_create.
        now repeat split. }
    destruct Hfound as [d' [Hd' [Hdn' [Hv' Hx']]]].
    pose proof (second_run_start p w _ h Hhosts Hraises Hh) as Hh'.
    pose proof (find_hostsystem_by_name_name _ _ _ Hh') as Hn.
    revert Hd' Hh' Hraises Hx'. generalize (world_after (reconcile p w)).
    intros w' Hd' Hh' Hr' Hx'.
    unfold outcome_of. unfold_module. rewrite Hh'. cbn. rewrite Hn, Hr', Hr. cbn.
    rewrite Hst. cbn. rewrite Hd'. cbn. rewrite Hv'. cbn.
    destruct (normalize_device (p_volume_device_name p)) as [dev|]; cbn; [|reflexivity].
    destruct (existsb _ _); cbn; [|reflexivity].
    rewrite Hdn', Hr', Hq. cbn. rewrite Hx', Hx. reflexivity.
Qed.

Lemma repeated_run_reports_unchanged_witness :
  reconcile (sample_params Absent None None)
    (world_after (reconcile (sample_params Absent None None)
                    (sample_world [] [] [] [] no_fault))) =
    reconcile (sample_params Absent None None) (sample_world [] [] [] [] no_fault) /\
  reconcile (sample_params Absent None None)
    (world_after (reconcile (sample_params Absent None None)
                    (sample_world [sample_datastore] [] [] [] no_fault))) =
    (world_after (reconcile (sample_params Absent None None)
                    (sample_world [sample_datastore] [] [] [] no_fault)),
     [RescanAllHba "esx1"], Exited (ExitJson false None)) /\
  outcome_of (reconcile (sample_params Present (Some sample_device) None)
                (world_after (reconcile (sample_params Present (Some sample_device) None)
                                (sample_world [] [] [sample_create_spec] [] no_fault)))) =
    Exited (ExitJson false None).
Proof.
  split; [|split].
  - apply (proj1 (repeated_run_reports_unchanged (sample_params Absent None None)
                    (sample_world [] [] [] [] no_fault)) None).
    reflexivity.
  - apply (proj1 (proj2 (repeated_run_reports_unchanged (sample_params Absent None None)
                           (sample_world [sample_datastore] [] [] [] no_fault)))
             (Some "Datastore SAN_DS01 on host esx1")).
    + reflexivity.
    + reflexivity.
    + intros d1 d2 [<-|[]] [<-|[]] _ _. reflexivity.
  - apply (proj2 (proj2 (repeated_run_reports_unchanged
                           (sample_params Present (Some sample_device) None)
                           (sample_world [] [] [sample_create_spec] [] no_fault)))
             (Some "Datastore SAN_DS01 on host esx1")).
    all: reflexivity.
Defined.

(** Counterexample to C3 as stated.
    - Two datastore objects are named [SAN_DS01] (in two datacenters): the
      first run removes the first of them and reports [changed=true]; the
      second run finds the other one and reports [changed=true] again.
    - The unmount on [esx2] raises: both runs fail. *)
Lemma C3_second_run_not_unchanged :
  (let p := sample_params Absent None None in
   let w := sample_world [sample_datastore; remote_datastore] [] [] [] no_fault in
   outcome_of (reconcile p w) = Exited (ExitJson true (Some "Datastore SAN_DS01 on host esx1")) /\
   trace_of (reconcile p (world_after (reconcile p w))) =
     [RescanAllHba "esx1"; UnmountVmfsVolume "esx3" "6c2a1f3b-uuid";
      RemoveDatastore "esx1" "SAN_DS01"] /\
   outcome_of (reconcile p (world_after (reconcile p w))) =
     Exited (ExitJson true (Some "Datastore SAN_DS01 on host esx1"))) /\
  (let p := sample_params Absent None None in
   let w := sample_world [sample_datastore] [] [] []
              (fun c => match c with
                        | UnmountVmfsVolume "esx2" _ => Some "The resource is in use."
                        | _ => None
                        end) in
   outcome_of (reconcile p (world_after (reconcile p w))) =
     Exited (FailJson "Cannot umount datastore SAN_DS01 from host esx1: The resource is in use.")).
Proof. split; [split; [|split]|]; vm_compute; reflexivity. Qed.

(** ** The facts module *)

Lemma read_all_names l rs : read_all l = FRet rs -> map fact_name rs = map ds_name l.
Proof.
  revert rs. induction l as [|d ds IH]; intros rs; cbn.
  - now intros [= <-].
  - destruct (read_datastore (Some d)) as [r| |] eqn:Er; [|discriminate..].
    destruct (read_all ds) as [rs'| |]; [|discriminate..].
    intros [= <-]. cbn. destruct (read_datastore_ok _ _ Er) as [v [_ ->]]. cbn.
    now rewrite (IH rs' eq_refl).
Qed.

Lemma read_all_vmfs l :
  (forall d, In d l -> ds_vmfs d <> None) -> exists rs, read_all l = FRet rs.
Proof.
  induction l as [|d ds IH]; intros Hv; cbn; [now exists []|].
  destruct (ds_vmfs d) as [v|] eqn:Ed; [|exfalso; now apply (Hv d (or_introl eq_refl))].
  destruct IH as [rs E]; [intros d' Hin; apply Hv; now right|].
  unfold read_datastore at 1. rewrite Ed, E. eexists. reflexivity.
Qed.

Lemma read_all_nas pre d post :
  (forall x, In x pre -> ds_vmfs x <> None) -> ds_vmfs d = None ->
  read_all (app pre (d :: post)) =
    FExited (FactsFail ("'" ++ ds_info_class d ++ "' object has no attribute 'vmfs'")).
Proof.
  intros Hpre Hd. induction pre as [|x xs IH]; cbn.
  - unfold read_datastore at 1. now rewrite Hd.
  - unfold read_datastore at 1.
    destruct (ds_vmfs x) as [v|] eqn:Ex; [|exfalso; now apply (Hpre x (or_introl eq_refl))].
    rewrite IH; [reflexivity|]. intros y Hy. apply Hpre. now right.
Qed.

(** X12: when [datastore_name] is given and no datastore has that name,
    [read_datastore(None)] fails the facts run with the attribute error of
    [None]. *)
Theorem facts_unknown_datastore_fails p w :
  truthy (fp_datastore_name p) = true ->
  find_datastore_by_name w (py_str_opt (fp_datastore_name p)) = None ->
  facts_main p w = FactsFail "'NoneType' object has no attribute 'summary'".
Proof.
  intros Ht Hf. unfold facts_main, gather_facts. rewrite Ht, Hf. reflexivity.
Qed.

Lemma facts_unknown_datastore_fails_witness :
  facts_main {| fp_datastore_name := Some "SAN_DS99"; fp_esxi_hostname := None |}
    (sample_world [sample_datastore] [] [] [] no_fault) =
  FactsFail "'NoneType' object has no attribute 'summary'".
Proof. apply facts_unknown_datastore_fails; reflexivity. Defined.

(** X13: when only [esxi_hostname] is given and no host has that name,
    reading [host.datastore] raises and [main] fails the facts run with the
    attribute error of [None]. *)
Theorem facts_unknown_host_fails p w :
  truthy (fp_datastore_name p) = false ->
  truthy (fp_esxi_hostname p) = true ->
  find_hostsystem_by_name w (py_str_opt (fp_esxi_hostname p)) = None ->
  facts_main p w = FactsFail "'NoneType' object has no attribute 'datastore'".
Proof.
  intros Hn Ht Hf. unfold facts_main, gather_facts. rewrite Hn, Ht, Hf. reflexivity.
Qed.

Lemma facts_unknown_host_fails_witness :
  facts_main {| fp_datastore_name := None; fp_esxi_hostname := Some "esx9" |}
    (sample_world [sample_datastore] [] [] [] no_fault) =
  FactsFail "'NoneType' object has no attribute 'datastore'".
Proof. apply facts_unknown_host_fails; reflexivity. Defined.

(** X14: with neither filter given, the facts run lists every datastore of
    the inventory, one record per datastore in inventory order, when all
    are VMFS; otherwise the first datastore without VMFS information fails
    the whole run, with the attribute error of its [info] object (whose
    class the message names, e.g. [vim.host.NasDatastoreInfo]). *)
Theorem facts_all_datastores p w :
  truthy (fp_datastore_name p) = false ->
  truthy (fp_esxi_hostname p) = false ->
  ((forall d, In d (w_datastores w) -> ds_vmfs d <> None) ->
     exists l, facts_main p w = FactsExit false l /\
               map fact_name l = map ds_name (w_datastores w)) /\
  (forall pre d post,
     w_datastores w = app pre (d :: post) ->
     (forall x, In x pre -> ds_vmfs x <> None) ->
     ds_vmfs d = None ->
     facts_main p w =
       FactsFail ("'" ++ ds_info_class d ++ "' object has no attribute 'vmfs'")).
Proof.
  intros Hn Hh. unfold facts_main, gather_facts. rewrite Hn, Hh. split.
  - intros Hv. destruct (read_all_vmfs _ Hv) as [rs E]. rewrite E.
    exists rs. split; [reflexivity|]. now apply read_all_names.
  - intros pre d post E Hpre Hd. rewrite E. now rewrite read_all_nas.
Qed.

Lemma facts_all_datastores_witness :
  facts_main {| fp_datastore_name := None; fp_esxi_hostname := None |}
    (sample_world [sample_datastore; nfs_datastore] [] [] [] no_fault) =
  FactsFail "'vim.host.NasDatastoreInfo' object has no attribute 'vmfs'".
Proof.
  apply (proj2 (facts_all_datastores {| fp_datastore_name := None; fp_esxi_hostname := None |}
                  (sample_world [sample_datastore; nfs_datastore] [] [] [] no_fault)
                  eq_refl eq_refl) [sample_datastore] nfs_datastore []).
  - reflexivity.
  - intros x [<-|[]]. discriminate.
  - reflexivity.
Defined.

(** X15: when only [esxi_hostname] [n] is given and names a host, a facts
    run that succeeds lists exactly the datastores the host lists in
    [host.datastore], one record per datastore in that order. *)
Theorem facts_host_datastores p w n h c l :
  truthy (fp_datastore_name p) = false ->
  fp_esxi_hostname p = Some n ->
  n <> "" ->
  find_hostsystem_by_name w n = Some h ->
  facts_main p w = FactsExit c l ->
  map fact_name l = map ds_name (host_datastores w n).
Proof.
  intros Hn Hh Hne Hf. pose proof (find_hostsystem_by_name_name _ _ _ Hf) as Hname.
  apply String.eqb_neq in Hne.
  unfold facts_main, gather_facts. rewrite Hn, Hh. cbn. rewrite Hne. cbn. rewrite Hf.
  rewrite Hname.
  destruct (read_all _) as [rs|m|e] eqn:E; [|discriminate|].
  - intros [= _ <-]. now apply read_all_names.
  - intros ->. destruct (read_all_exit _ _ E) as [m Em]. discriminate.
Qed.

Lemma facts_host_datastores_witness :
  map fact_name
    [ {| fact_name := "SAN_DS01"; fact_maintenanceMode := "normal";
         fact_url := "ds:///vmfs/volumes/5b1f0e2a-uuid/";
         fact_datastore_cluster := "N/A"; fact_vmfs_type := "VMFS";
         fact_wwn := [sample_device] |} ] =
  map ds_name (host_datastores (sample_world [sample_datastore; unmounted_datastore] [] [] []
                                  no_fault) "esx2").
Proof.
  apply (facts_host_datastores {| fp_datastore_name := None; fp_esxi_hostname := Some "esx2" |}
           (sample_world [sample_datastore; unmounted_datastore] [] [] [] no_fault)
           "esx2" {| h_name := "esx2"; h_parent := "Cluster01" |} false).
  - reflexivity.
  - reflexivity.
  - discriminate.
  - reflexivity.
  - vm_compute. reflexivity.
Defined.

(** X16: when [datastore_name] is given, [esxi_hostname] is ignored, and a
    facts run that succeeds lists exactly one record: the one of the first
    datastore of that name. *)
Theorem facts_by_name_single_record p w :
  truthy (fp_datastore_name p) = true ->
  facts_main p w =
    facts_main {| fp_datastore_name := fp_datastore_name p; fp_esxi_hostname := None |} w /\
  (forall c l, facts_main p w = FactsExit c l ->
     exists d r, find_datastore_by_name w (py_str_opt (fp_datastore_name p)) = Some d /\
                 read_datastore (Some d) = FRet r /\ l = [r]).
Proof.
  intros Ht. split; [unfold facts_main, gather_facts; cbn; now rewrite Ht|].
  intros c l. unfold facts_main, gather_facts. rewrite Ht.
  destruct (find_datastore_by_name w _) as [d|]; [|discriminate].
  destruct (read_datastore (Some d)) as [r| |] eqn:Er; [|discriminate|].
  - intros [= _ <-]. now exists d, r.
  - intros ->. destruct (read_datastore_exit _ _ Er) as [m Em]. discriminate.
Qed.

Lemma facts_by_name_single_record_witness :
  facts_main {| fp_datastore_name := Some "SAN_DS01"; fp_esxi_hostname := Some "esx9" |}
    (sample_world [sample_datastore] [] [] [] no_fault) =
  facts_main {| fp_datastore_name := Some "SAN_DS01"; fp_esxi_hostname := None |}
    (sample_world [sample_datastore] [] [] [] no_fault).
Proof.
  apply (facts_by_name_single_record
           {| fp_datastore_name := Some "SAN_DS01"; fp_esxi_hostname := Some "esx9" |}
           (sample_world [sample_datastore] [] [] [] no_fault)).
  reflexivity.
Defined.

(** ** [diskName.split('.')[-1]] *)

Lemma py_split_nonempty c s : py_split c s <> [].
Proof.
  destruct s as [|x t]; cbn; [discriminate|].
  destruct (py_split c t); [discriminate|]. destruct (Ascii.eqb x c); discriminate.
Qed.

Lemma py_split_sep c a b :
  exists pre, pre <> [] /\ py_split c (a ++ String c b) = app pre (py_split c b).
Proof.
  induction a as [|x a IH].
  - change (EmptyString ++ String c b) with (String c b). cbn [py_split].
    destruct (py_split c b) as [|w ws] eqn:E; [now apply py_split_nonempty in E|].
    rewrite Ascii.eqb_refl. exists [EmptyString]. split; [discriminate|reflexivity].
  - change (String x a ++ String c b) with (String x (a ++ String c b)). cbn [py_split].
    destruct IH as [pre [Hne E]]. rewrite E.
    destruct pre as [|w pre]; [contradiction|]. cbn [app].
    destruct (Ascii.eqb x c).
    + exists (EmptyString :: w :: pre). split; [discriminate|reflexivity].
    + exists (String x w :: pre). split; [discriminate|reflexivity].
Qed.

Lemma py_split_no_sep b :
  py_contains (String "." EmptyString) b = false -> py_split "." b = [b].
Proof.
  induction b as [|x t IH]; [reflexivity|].
  cbn [py_contains]. intros H. apply orb_false_iff in H as [Hp Ht].
  cbn [py_split]. rewrite (IH Ht).
  destruct (Ascii.eqb x ".") eqn:E; [|reflexivity].
  apply Ascii.eqb_eq in E. subst x. destruct t; cbn in Hp; discriminate Hp.
Qed.

(** X17: the WWN read from an extent's device name is the text after its
    last dot: a name without a dot is kept whole, and [a ++ "." ++ b] gives
    [b] when [b] has no dot (e.g. ["naa.<id>"] gives [<id>]). *)
Theorem last_dot_segment_after_last_dot b :
  py_contains "." b = false ->
  last_dot_segment b = b /\ (forall a, last_dot_segment (a ++ "." ++ b) = b).
Proof.
  intros Hb. unfold last_dot_segment, py_last. split.
  - now rewrite py_split_no_sep.
  - intros a. destruct (py_split_sep "." a b) as [pre [_ E]].
    change ("." ++ b) with (String "." b). rewrite E, py_split_no_sep by exact Hb.
    apply last_last.
Qed.

Lemma last_dot_segment_after_last_dot_witness :
  last_dot_segment ("naa" ++ "." ++ sample_device) = sample_device.
Proof.
  apply (last_dot_segment_after_last_dot sample_device). vm_compute. reflexivity.
Defined.

(** ** A rescan fault after the create *)

Lemma rescan_loop_inv (target : string) hosts :
  forall s s' x,
  for_each hosts (fun host =>
    if negb (String.eqb host target) then
      remote (RescanAllHba host) ;; remote (RescanVmfs host)
    else ret tt) s = (s', x) ->
  st_world s' = st_world s /\
  (x = Ret tt -> forall host, In host hosts -> host <> target ->
     w_raises (st_world s) (RescanAllHba host) = None /\
     w_raises (st_world s) (RescanVmfs host) = None).
Proof.
  induction hosts as [|y ys IH]; intros s s' x H.
  - unfold for_each in H. injection H as <- <-. split; [reflexivity|]. intros _ host [].
  - rewrite for_each_cons in H. cbv beta in H.
    destruct (negb (String.eqb y target)) eqn:En.
    + unfold bind, remote in H. cbn in H.
      destruct (w_raises (st_world s) (RescanAllHba y)) eqn:E1.
      { injection H as <- <-. split; [reflexivity|discriminate]. }
      cbn in H. destruct (w_raises (st_world s) (RescanVmfs y)) eqn:E2.
      { injection H as <- <-. split; [reflexivity|discriminate]. }
      destruct (IH _ _ _ H) as [Hw Hr]. cbn [st_world] in Hw, Hr.
      split; [exact Hw|]. intros Hx host [<-|Hin] Hne; [now split|].
      now apply Hr.
    + unfold ret in H.
      destruct (IH _ _ _ H) as [Hw Hr].
      split; [exact Hw|]. intros Hx host [<-|Hin] Hne.
      * apply negb_false_iff, String.eqb_eq in En. contradiction.
      * now apply Hr.
Qed.

Lemma rescan_other_inv r s s' x :
  rescan_other_hosts_in_cluster r s = (s', x) ->
  st_world s' = st_world s /\
  (x = Ret tt -> forall host,
     In host (get_all_hosts_by_cluster (st_world s) (h_parent (esxi r))) ->
     host <> esxi_hostname r ->
     w_raises (st_world s) (RescanAllHba host) = None /\
     w_raises (st_world s) (RescanVmfs host) = None).
Proof.
  unfold rescan_other_hosts_in_cluster, bind at 1, get_world. cbv beta iota.
  apply rescan_loop_inv.
Qed.

(** X18: on the create path with no datastore cluster named, when the create
    succeeds but an HBA or VMFS rescan of another member of the target
    host's cluster raises, the run reports the mount error with a fault
    message, although the create call was issued and the new datastore is
    in the inventory afterwards. *)
Theorem sibling_rescan_fault_after_create p w h opt0 rest sib :
  p_state p = Present ->
  find_hostsystem_by_name w (p_esxi_hostname p) = Some h ->
  w_raises w (RescanAllHba (p_esxi_hostname p)) = None ->
  find_datastore_by_name w (p_datastore_name p) = None ->
  truthy (p_datastore_cluster_name p) = false ->
  let hn := p_esxi_hostname p in
  let dn := p_datastore_name p in
  let path := "/vmfs/devices/disks/naa." ++ py_str_opt (normalize_device (p_volume_device_name p)) in
  let spec := {| cs_volumeName := dn; cs_diskName := cs_diskName opt0 |} in
  w_raises w (QueryVmfsDatastoreCreateOptions hn path) = None ->
  w_create_options w path = opt0 :: rest ->
  w_raises w (CreateVmfsDatastore hn spec) = None ->
  In sib (get_all_hosts_by_cluster w (h_parent h)) ->
  sib <> hn ->
  w_raises w (RescanAllHba sib) <> None \/ w_raises w (RescanVmfs sib) <> None ->
  world_after (reconcile p w) = apply_call w (CreateVmfsDatastore hn spec) /\
  In (CreateVmfsDatastore hn spec) (trace_of (reconcile p w)) /\
  exists m, outcome_of (reconcile p w) =
    Exited (FailJson (("Cannot mount datastore " ++ dn ++ " on host " ++ hn) ++ " : " ++ m)).
Proof.
  intros Hst Hh Hr Hd Ht hn dn path spec Hq Ho Hc Hin Hne Hf. subst hn dn path spec.
  pose proof (find_hostsystem_by_name_name _ _ _ Hh) as Hn.
  unfold world_after, trace_of, outcome_of.
  unfold_module. rewrite Hh. cbn. rewrite Hn, Hr. cbn. rewrite Hst. cbn. rewrite Hd. cbn.
  rewrite Hq. cbn. rewrite Ho. cbn. rewrite Hc. cbn.
  destruct (p_datastore_cluster_name p) as [cl|] eqn:Ecl; cbn in Ht |- *;
    [rewrite Ht; cbn|].
  all: match goal with
       | |- context [rescan_other_hosts_in_cluster ?r ?s] =>
           destruct (rescan_other_hosts_in_cluster r s) as [s' [u|m|ex]] eqn:Es;
           pose proof (rescan_other_inv _ _ _ _ Es) as [Hw Hok];
           pose proof (appends_no_create_rescan_other _ _ _ _ Es) as [ext [Et _]]
       end.
  all: cbn [st_world st_trace esxi h_parent esxi_hostname] in Hw, Hok, Et.
  all: try (exfalso; eapply no_exit_rescan_other; exact Es).
  all: try (destruct u; exfalso;
            destruct (Hok eq_refl sib) as [H1 H2];
            [unfold get_all_hosts_by_cluster in *; exact Hin | exact Hne |];
            cbn in H1, H2; destruct Hf as [Hf|Hf]; contradiction).
  all: cbn; rewrite Hw, Et; split; [reflexivity|split; [|eexists; reflexivity]].
  all: apply in_or_app; left; cbn; tauto.
Qed.

Lemma sibling_rescan_fault_after_create_witness :
  exists m,
    outcome_of (reconcile (sample_params Present (Some sample_device) None)
                  (sample_world [] [] [sample_create_spec] []
                     (fun c => match c with
                               | RescanVmfs "esx2" => Some "Host esx2 is not responding"
                               | _ => None
                               end))) =
    Exited (FailJson ("Cannot mount datastore SAN_DS01 on host esx1" ++ " : " ++ m)).
Proof.
  refine (proj2 (proj2 (sibling_rescan_fault_after_create
            (sample_params Present (Some sample_device) None)
            (sample_world [] [] [sample_create_spec] []
               (fun c => match c with
                         | RescanVmfs "esx2" => Some "Host esx2 is not responding"
                         | _ => None
                         end))
            {| h_name := "esx1"; h_parent := "Cluster01" |} sample_create_spec [] "esx2"
            _ _ _ _ _ _ _ _ _ _ _))).
  all: try reflexivity.
  - cbn. right. now left.
  - discriminate.
  - right. discriminate.
Defined.
